(** * ESC/POS command encoder ([escpos/escpos.go]): embedding and properties

    The encoder keeps a few style fields, formats each printer command as a
    byte string and hands it to an [io.ReadWriter].  Text commands go through
    [Write], which transcodes the string from UTF-8 to GB18030 before the
    bytes reach the device; binary commands go through [WriteRaw].

    Conventions of the embedding:
    - a Go [byte]/[uint8] is a [Z] in [0, 256); conversions that truncate in
      Go ([byte(x)], [uint8] arithmetic) are written [uint8 x];
    - a Go [string] and a Go [[]byte] are both the list of their bytes;
    - a method with a pointer receiver is a function [Escpos -> Escpos]
      (or [Escpos -> result * Escpos] when it returns something);
    - the device behind [dst] is a deterministic function of what it has been
      asked so far; every call on it is appended to a log. *)

From Stdlib Require Import String ZArith List Lia Bool Permutation.
Import ListNotations.
Open Scope Z_scope.

(** ** Bytes and strings *)

(** Go's conversion to [byte] / [uint8]: the low eight bits. *)
Definition uint8 (x : Z) : Z := x mod 256.

(** Go's conversion of an [int] to [uint64]. *)
Definition uint64 (x : Z) : Z := x mod 2 ^ 64.

(** The bytes of a printable literal, as in ["center"]. *)
Definition str (s : string) : list Z :=
  map (fun b => Z.of_N (Byte.to_N b)) (list_byte_of_string s).

(** Equality of two Go strings (the comparison behind a [switch] on a string). *)
Fixpoint bytes_eqb (a b : list Z) : bool :=
  match a, b with
  | [], [] => true
  | x :: a', y :: b' => (x =? y) && bytes_eqb a' b'
  | _, _ => false
  end.

(** [len(s)] as a Go [int]. *)
Definition len (s : list Z) : Z := Z.of_nat (length s).

(** Bytes below [0x80]: the strings on which UTF-8 and GB18030 agree. *)
Definition ascii (s : list Z) : Prop := Forall (fun b => 0 <= b < 128) s.

(** Go's [error] values, by their message. *)
Definition error := string.

(** ** [unicode/utf8] of the Go standard library *)

Module utf8.

Definition RuneError : Z := 0xFFFD.
Definition RuneSelf : Z := 0x80.
Definition MaxRune : Z := 0x10FFFF.

Definition surrogateMin : Z := 0xD800.
Definition surrogateMax : Z := 0xDFFF.

Definition rune1Max : Z := 0x7F.
Definition rune2Max : Z := 0x7FF.
Definition rune3Max : Z := 0xFFFF.

Definition t2 : Z := 0xC0.
Definition t3 : Z := 0xE0.
Definition t4 : Z := 0xF0.
Definition tx : Z := 0x80.
Definition maskx : Z := 0x3F.
Definition mask2 : Z := 0x1F.
Definition mask3 : Z := 0x0F.
Definition mask4 : Z := 0x07.

Definition locb : Z := 0x80.
Definition hicb : Z := 0xBF.

(** Entries of the table [first]: [as] for ASCII, [xx] for an invalid first
    byte, otherwise the size in the low nibble and the index of the accept
    range for the second byte in the high nibble. *)
Definition xx : Z := 0xF1.
Definition as_ : Z := 0xF0.
Definition s1 : Z := 0x02.
Definition s2 : Z := 0x13.
Definition s3 : Z := 0x03.
Definition s4 : Z := 0x23.
Definition s5 : Z := 0x34.
Definition s6 : Z := 0x04.
Definition s7 : Z := 0x44.

(** The 256-entry array [first], row by row. *)
Definition first (b : Z) : Z :=
  if b <? 0x80 then as_
  else if b <? 0xC2 then xx
  else if b <? 0xE0 then s1
  else if b =? 0xE0 then s2
  else if b <? 0xED then s3
  else if b =? 0xED then s4
  else if b <? 0xF0 then s3
  else if b =? 0xF0 then s5
  else if b <? 0xF4 then s6
  else if b =? 0xF4 then s7
  else xx.

(** [acceptRanges[i]] as the pair [(lo, hi)]. *)
Definition acceptRanges (i : Z) : Z * Z :=
  if i =? 0 then (locb, hicb)
  else if i =? 1 then (0xA0, hicb)
  else if i =? 2 then (locb, 0x9F)
  else if i =? 3 then (0x90, hicb)
  else if i =? 4 then (locb, 0x8F)
  else (0, 0).

(** [utf8.DecodeRune(p)]: the first rune of [p] and its width in bytes;
    [(RuneError, 1)] on an invalid or truncated encoding. *)
Definition DecodeRune (p : list Z) : Z * nat :=
  match p with
  | [] => (RuneError, 0%nat)
  | p0 :: _ =>
    let n := len p in
    let x := first p0 in
    if as_ <=? x then ((if x =? xx then RuneError else p0), 1%nat)
    else
      let sz := Z.land x 7 in
      let accept := acceptRanges (Z.shiftr x 4) in
      if n <? sz then (RuneError, 1%nat)
      else
        let b1 := nth 1 p 0 in
        if (b1 <? fst accept) || (snd accept <? b1) then (RuneError, 1%nat)
        else if sz <=? 2 then
          (Z.lor (Z.shiftl (Z.land p0 mask2) 6) (Z.land b1 maskx), 2%nat)
        else
          let b2 := nth 2 p 0 in
          if (b2 <? locb) || (hicb <? b2) then (RuneError, 1%nat)
          else if sz <=? 3 then
            (Z.lor (Z.lor (Z.shiftl (Z.land p0 mask3) 12)
                          (Z.shiftl (Z.land b1 maskx) 6))
                   (Z.land b2 maskx), 3%nat)
          else
            let b3 := nth 3 p 0 in
            if (b3 <? locb) || (hicb <? b3) then (RuneError, 1%nat)
            else
              (Z.lor (Z.lor (Z.lor (Z.shiftl (Z.land p0 mask4) 18)
                                   (Z.shiftl (Z.land b1 maskx) 12))
                            (Z.shiftl (Z.land b2 maskx) 6))
                     (Z.land b3 maskx), 4%nat)
  end.

(** The three-byte form shared by two cases of [appendRuneNonASCII]. *)
Definition encode3 (r : Z) : list Z :=
  [Z.lor t3 (uint8 (Z.shiftr r 12));
   Z.lor tx (Z.land (uint8 (Z.shiftr r 6)) maskx);
   Z.lor tx (Z.land (uint8 r) maskx)].

(** [utf8.AppendRune(nil, r)] for a rune [r] that is not negative. *)
Definition AppendRune (r : Z) : list Z :=
  if r <=? rune1Max then [uint8 r]
  else if r <=? rune2Max then
    [Z.lor t2 (uint8 (Z.shiftr r 6)); Z.lor tx (Z.land (uint8 r) maskx)]
  else if (MaxRune <? r) || ((surrogateMin <=? r) && (r <=? surrogateMax)) then
    encode3 RuneError
  else if r <=? rune3Max then encode3 r
  else
    [Z.lor t4 (uint8 (Z.shiftr r 18));
     Z.lor tx (Z.land (uint8 (Z.shiftr r 12)) maskx);
     Z.lor tx (Z.land (uint8 (Z.shiftr r 6)) maskx);
     Z.lor tx (Z.land (uint8 r) maskx)].

End utf8.

(** ** The verbs of [fmt.Sprintf] the encoder uses *)

Module fmt.

(** [%c] on an integer whose conversion to [uint64] is [c] ([fmt.fmtC]): the
    UTF-8 encoding of the code point [c], of U+FFFD when [c] is no code
    point. *)
Definition fmtC (c : Z) : list Z :=
  utf8.AppendRune (if utf8.MaxRune <? c then utf8.RuneError else c).

(** The digits of a decimal numeral, most significant first. *)
Fixpoint digits (d : Decimal.uint) : list Z :=
  match d with
  | Decimal.Nil => []
  | Decimal.D0 k => 48 :: digits k
  | Decimal.D1 k => 49 :: digits k
  | Decimal.D2 k => 50 :: digits k
  | Decimal.D3 k => 51 :: digits k
  | Decimal.D4 k => 52 :: digits k
  | Decimal.D5 k => 53 :: digits k
  | Decimal.D6 k => 54 :: digits k
  | Decimal.D7 k => 55 :: digits k
  | Decimal.D8 k => 56 :: digits k
  | Decimal.D9 k => 57 :: digits k
  end.

(** [%v] on a length: its decimal text. *)
Definition fmtLen (n : nat) : list Z := digits (Nat.to_uint n).

End fmt.

(** ** The GB18030 encoder of [golang.org/x/text]

    [simplifiedchinese.GB18030.NewEncoder()] is a dependency of the
    repository, not part of it.  Its [Transform] walks the UTF-8 input rune
    by rune: a byte below [0x80] is copied, an invalid byte is read as
    U+FFFD, and every other rune is looked up in the two-byte GBK tables and,
    failing that, written as a four-byte code computed from a linear index.
    The control flow is embedded as it stands; the data tables are taken as
    parameters, so every result below holds whatever the tables contain. *)

Class Tables := {
  (** the two-byte code [r2] the switch over [encode0] .. [encode4] finds
      for a rune, [0] when it finds none *)
  twoByte : Z -> Z;
  (** whether the euro sign takes the code page 936 shortcut to the single
      byte [0x80] (releases of the library differ) *)
  euroByte : bool;
  (** for a rune below [0x10000], its linear four-byte index, the result of
      the binary search in the ranges table [gb18030] *)
  fourByteIndex : Z -> Z
}.

Module gb18030.

Definition ErrASCIIReplacement : error := "encoding: rune not supported by encoding."%string.

(** The label [write2]. *)
Definition write2 (r2 : Z) : list Z := [uint8 (Z.shiftr r2 8); uint8 r2].

(** The label [write4]: digits of the index in the mixed radix 10, 126, 10. *)
Definition write4 (r : Z) : list Z :=
  let d3 := uint8 (Z.rem r 10 + 0x30) in
  let r := Z.quot r 10 in
  let d2 := uint8 (Z.rem r 126 + 0x81) in
  let r := Z.quot r 126 in
  let d1 := uint8 (Z.rem r 10 + 0x30) in
  let r := Z.quot r 10 in
  [uint8 (r + 0x81); d1; d2; d3].

Section Encoder.
Context {T : Tables}.

(** The code of one decoded rune, [None] where [Transform] stops with
    [ErrASCIIReplacement]. *)
Definition encodeRune (r : Z) : option (list Z) :=
  if r <? utf8.RuneSelf then Some [uint8 r]
  else if euroByte && (r =? 0x20AC) then Some [0x80]
  else if negb (twoByte r =? 0) then Some (write2 (twoByte r))
  else if r <? 0x10000 then Some (write4 (fourByteIndex r))
  else if r <? 0x110000 then Some (write4 (r + (189000 - 0x10000)))
  else None.

(** The loop of [Transform] over the whole input (the reader hands it the
    input in chunks, which does not change the output).  [skip] counts the
    continuation bytes of the rune just decoded that are still to be stepped
    over: the loop's [nSrc += size]. *)
Fixpoint Transform (src : list Z) (skip : nat) : list Z * option error :=
  match src with
  | [] => ([], None)
  | c :: rest =>
    match skip with
    | S k => Transform rest k
    | O =>
      let (r, size) :=
        if c <? utf8.RuneSelf then (c, 1%nat) else utf8.DecodeRune src in
      match encodeRune r with
      | None => ([], Some ErrASCIIReplacement)
      | Some code =>
        let (out, err) := Transform rest (size - 1) in (code ++ out, err)
      end
    end
  end.

(** [ioutil.ReadAll(transform.NewReader(bytes.NewReader([]byte(data)), enc))]:
    the bytes produced before the first error, and that error. *)
Definition ReadAll (data : list Z) : list Z * option error := Transform data 0.

End Encoder.
End gb18030.

(** ** The device: [io.ReadWriter]

    The encoder is handed an interface value and never looks inside it.  The
    embedding keeps the calls made on it in a log and lets an arbitrary
    function of that log decide what each call returns, so that a statement
    about every [ReadWriter] covers devices that fail, that answer short, or
    whose answers depend on what they were sent. *)

Inductive call : Type :=
| CallWrite (p : list Z)   (* Write(p) *)
| CallRead (size : nat).   (* Read(p) with len(p) = size *)

Record ReadWriter := {
  log : list call;
  (** what [Write(p)] returns after the calls in the log: [(n, err)] *)
  onWrite : list call -> list Z -> Z * option error;
  (** what [Read(p)] delivers after the calls in the log: the bytes put at
      the front of [p] (cut to [len(p)]) and [err] *)
  onRead : list call -> nat -> list Z * option error
}.

Definition logged (c : call) (rw : ReadWriter) : ReadWriter :=
  {| log := log rw ++ [c]; onWrite := onWrite rw; onRead := onRead rw |}.

Definition rwWrite (p : list Z) (rw : ReadWriter) : (Z * option error) * ReadWriter :=
  (onWrite rw (log rw) p, logged (CallWrite p) rw).

(** Returns [(n, err)], the buffer after the call, and the device. *)
Definition rwRead (p : list Z) (rw : ReadWriter)
  : (Z * option error) * list Z * ReadWriter :=
  let (bytes, err) := onRead rw (log rw) (length p) in
  let got := firstn (length p) bytes in
  ((len got, err), got ++ skipn (length got) p, logged (CallRead (length p)) rw).

(** The buffers written so far, oldest first. *)
Fixpoint written (l : list call) : list (list Z) :=
  match l with
  | [] => []
  | CallWrite p :: l' => p :: written l'
  | CallRead _ :: l' => written l'
  end.

(** ** The encoder *)

Definition DLE : Z := 0x10.
Definition EOT : Z := 0x04.
Definition GS : Z := 0x1D.

Record Escpos := {
  dst : ReadWriter;
  width : Z;
  height : Z;
  underline : Z;
  emphasize : Z;
  upsidedown : Z;
  rotate : Z;
  reverse : Z;
  smooth : Z
}.

Definition with_dst (d : ReadWriter) (e : Escpos) : Escpos :=
  {| dst := d; width := width e; height := height e;
     underline := underline e; emphasize := emphasize e;
     upsidedown := upsidedown e; rotate := rotate e;
     reverse := reverse e; smooth := smooth e |}.

Definition reset (e : Escpos) : Escpos :=
  {| dst := dst e; width := 1; height := 1;
     underline := 0; emphasize := 0; upsidedown := 0; rotate := 0;
     reverse := 0; smooth := 0 |}.

Definition New (d : ReadWriter) : Escpos :=
  reset {| dst := d; width := 0; height := 0;
           underline := 0; emphasize := 0; upsidedown := 0; rotate := 0;
           reverse := 0; smooth := 0 |}.

Definition WriteRaw (data : list Z) (e : Escpos) : (Z * option error) * Escpos :=
  if 0 <? len data
  then let (_, d) := rwWrite data (dst e) in ((0, None), with_dst d e)
  else ((0, None), e).

Definition ReadRaw (data : list Z) (e : Escpos)
  : (Z * option error) * list Z * Escpos :=
  let '(res, data', d) := rwRead data (dst e) in (res, data', with_dst d e).

Section Methods.
Context {T : Tables}.

(** [bs, _ := ioutil.ReadAll(reader); return e.WriteRaw(bs)] *)
Definition Write (data : list Z) (e : Escpos) : (Z * option error) * Escpos :=
  let (bs, _) := gb18030.ReadAll data in WriteRaw bs e.

(** [e.WriteRaw([]byte{0x1b, 0x70, byte(0), byte(10), byte(10)})] *)
Definition OpenDrawer (e : Escpos) : Escpos :=
  snd (WriteRaw [0x1B; 0x70; uint8 0; uint8 10; uint8 10] e).

(** [e.reset(); e.Write("\x1B@")] *)
Definition Init (e : Escpos) : Escpos := snd (Write [0x1B; 0x40] (reset e)).

(** [e.Write("\xFA")] *)
Definition End (e : Escpos) : Escpos := snd (Write [0xFA] e).

(** [e.Write("\x1DVA0")] *)
Definition Cut (e : Escpos) : Escpos := snd (Write [0x1D; 0x56; 0x41; 0x30] e).

(** [e.WriteRaw([]byte{GS, 0x56, 1})] *)
Definition CutPartial (e : Escpos) : Escpos := snd (WriteRaw [GS; 0x56; 1] e).

(** [e.Write("\x1B\x70\x00\x0A\xFF")] *)
Definition Cash (e : Escpos) : Escpos :=
  snd (Write [0x1B; 0x70; 0x00; 0x0A; 0xFF] e).

(** [e.Write(fmt.Sprintf("\x1Bd%c", n))], [n] an [int] *)
Definition FormfeedN (n : Z) (e : Escpos) : Escpos :=
  snd (Write ([0x1B; 0x64] ++ fmt.fmtC (uint64 n)) e).

Definition Formfeed (e : Escpos) : Escpos := FormfeedN 1 e.

(** [e.Write(fmt.Sprintf("\x1D!%c", ((e.width)<<4)|(e.height)))] *)
Definition SendFontSize (e : Escpos) : Escpos :=
  snd (Write ([0x1D; 0x21]
               ++ fmt.fmtC (Z.lor (uint8 (Z.shiftl (width e) 4)) (height e))) e).

(** [e.Write(string([]byte{0x1b, 0x20, byte(n)}))] *)
Definition SetLetterSpace (n : Z) (e : Escpos) : Escpos :=
  snd (Write [0x1B; 0x20; uint8 n] e).

Definition SetFontSize (w h : Z) (e : Escpos) : Escpos :=
  if (0 <=? w) && (0 <=? h) && (w <? 8) && (h <? 8)
  then
    SendFontSize
      {| dst := dst e; width := w; height := h;
         underline := underline e; emphasize := emphasize e;
         upsidedown := upsidedown e; rotate := rotate e;
         reverse := reverse e; smooth := smooth e |}
  else e.

(** [e.WriteRaw([]byte{0x1b, 0x72, byte(color)})] *)
Definition SetFontColor (color : Z) (e : Escpos) : Escpos :=
  snd (WriteRaw [0x1B; 0x72; uint8 color] e).

(** [e.Write(fmt.Sprintf("\x1B-%c", e.underline))] *)
Definition SendUnderline (e : Escpos) : Escpos :=
  snd (Write ([0x1B; 0x2D] ++ fmt.fmtC (underline e)) e).

(** [e.Write(fmt.Sprintf("\x1BG%c", e.emphasize))] *)
Definition SendEmphasize (e : Escpos) : Escpos :=
  snd (Write ([0x1B; 0x47] ++ fmt.fmtC (emphasize e)) e).

(** [e.Write(fmt.Sprintf("\x1B{%c", e.upsidedown))] *)
Definition SendUpsidedown (e : Escpos) : Escpos :=
  snd (Write ([0x1B; 0x7B] ++ fmt.fmtC (upsidedown e)) e).

(** [e.Write(fmt.Sprintf("\x1BR%c", e.rotate))] *)
Definition SendRotate (e : Escpos) : Escpos :=
  snd (Write ([0x1B; 0x52] ++ fmt.fmtC (rotate e)) e).

(** [e.Write(fmt.Sprintf("\x1DB%c", e.reverse))] *)
Definition SendReverse (e : Escpos) : Escpos :=
  snd (Write ([0x1D; 0x42] ++ fmt.fmtC (reverse e)) e).

(** [e.Write(fmt.Sprintf("\x1Db%c", e.smooth))] *)
Definition SendSmooth (e : Escpos) : Escpos :=
  snd (Write ([0x1D; 0x62] ++ fmt.fmtC (smooth e)) e).

Definition SetUnderline (v : Z) (e : Escpos) : Escpos :=
  SendUnderline
    {| dst := dst e; width := width e; height := height e;
       underline := v; emphasize := emphasize e;
       upsidedown := upsidedown e; rotate := rotate e;
       reverse := reverse e; smooth := smooth e |}.

Definition SetEmphasize (u : Z) (e : Escpos) : Escpos :=
  SendEmphasize
    {| dst := dst e; width := width e; height := height e;
       underline := underline e; emphasize := u;
       upsidedown := upsidedown e; rotate := rotate e;
       reverse := reverse e; smooth := smooth e |}.

Definition SetUpsidedown (v : Z) (e : Escpos) : Escpos :=
  SendUpsidedown
    {| dst := dst e; width := width e; height := height e;
       underline := underline e; emphasize := emphasize e;
       upsidedown := v; rotate := rotate e;
       reverse := reverse e; smooth := smooth e |}.

Definition SetRotate (v : Z) (e : Escpos) : Escpos :=
  SendRotate
    {| dst := dst e; width := width e; height := height e;
       underline := underline e; emphasize := emphasize e;
       upsidedown := upsidedown e; rotate := v;
       reverse := reverse e; smooth := smooth e |}.

Definition SetReverse (v : Z) (e : Escpos) : Escpos :=
  SendReverse
    {| dst := dst e; width := width e; height := height e;
       underline := underline e; emphasize := emphasize e;
       upsidedown := upsidedown e; rotate := rotate e;
       reverse := v; smooth := smooth e |}.

Definition SetSmooth (v : Z) (e : Escpos) : Escpos :=
  SendSmooth
    {| dst := dst e; width := width e; height := height e;
       underline := underline e; emphasize := emphasize e;
       upsidedown := upsidedown e; rotate := rotate e;
       reverse := reverse e; smooth := v |}.

(** The [switch] leaves [a] at [0] for a name it does not list. *)
Definition SetAlign (align : list Z) (e : Escpos) : Escpos :=
  let a :=
    if bytes_eqb align (str "left") then 0
    else if bytes_eqb align (str "center") then 1
    else if bytes_eqb align (str "right") then 2
    else 0 in
  snd (Write ([0x1B; 0x61] ++ fmt.fmtC (uint64 a)) e).

(** The [switch] of [Barcode]: the type code, empty for a format it does not
    list. *)
Definition barcodeCode (format : Z) : list Z :=
  if format =? 0 then [0x00]
  else if format =? 1 then [0x01]
  else if format =? 2 then [0x02]
  else if format =? 3 then [0x03]
  else if format =? 4 then [0x04]
  else if format =? 73 then [0x49]
  else [].

Definition Barcode (barcode : list Z) (format : Z) (e : Escpos) : Escpos :=
  let code := barcodeCode format in
  let e := reset e in
  let e := SetAlign (str "center") e in
  let e :=
    if 69 <? format then
      (* fmt.Sprintf("\x1dk"+code+"%v%v", len(barcode), barcode) *)
      snd (Write ([0x1D; 0x6B] ++ code ++ fmt.fmtLen (length barcode) ++ barcode) e)
    else if format <? 69 then
      (* fmt.Sprintf("\x1dk"+code+"%v\x00", barcode) *)
      snd (Write ([0x1D; 0x6B] ++ code ++ barcode ++ [0x00]) e)
    else e in
  (* fmt.Sprintf("%v", barcode) *)
  snd (Write barcode e).

Definition gSend (m fn : Z) (data : list Z) (e : Escpos) : Escpos :=
  let l := len data + 2 in
  let e := snd (Write [0x1B; 0x28; 0x4C] e) in
  let e := snd (WriteRaw [uint8 (Z.rem l 256); uint8 (Z.quot l 256); m; fn] e) in
  snd (WriteRaw data e).

(** [e.Write(fmt.Sprintf("\x1C&"))]: the format has no verb. *)
Definition SetChineseOn (e : Escpos) : Escpos := snd (Write [0x1C; 0x26] e).

(** [e.Write("\n")] *)
Definition Linefeed (e : Escpos) : Escpos := snd (Write [0x0A] e).

(** [e.Write("\x1Bp\x02")] *)
Definition Pulse (e : Escpos) : Escpos := snd (Write [0x1B; 0x70; 0x02] e).

(** The [switch] of [SetFont], its [default] included. *)
Definition SetFont (font : list Z) (e : Escpos) : Escpos :=
  let f :=
    if bytes_eqb font (str "A") then 0
    else if bytes_eqb font (str "B") then 1
    else if bytes_eqb font (str "C") then 2
    else 0 in
  snd (Write ([0x1B; 0x4D] ++ fmt.fmtC (uint64 f)) e).

(** [e.Write(string([]byte{0x1b, 0x21, byte(style)}))] *)
Definition SetFontStyle (style : Z) (e : Escpos) : Escpos :=
  snd (Write [0x1B; 0x21; uint8 style] e).

(** [e.Write(string([]byte{0x1b, 0x24, byte(x % 256), byte(x / 256)}))];
    Go's [%] and [/] on an [int] truncate toward zero. *)
Definition SendMoveX (x : Z) (e : Escpos) : Escpos :=
  snd (Write [0x1B; 0x24; uint8 (Z.rem x 256); uint8 (Z.quot x 256)] e).

(** [e.Write(string([]byte{0x1d, 0x24, byte(y % 256), byte(y / 256)}))] *)
Definition SendMoveY (y : Z) (e : Escpos) : Escpos :=
  snd (Write [0x1D; 0x24; uint8 (Z.rem y 256); uint8 (Z.quot y 256)] e).

(** [size] is a [uint16]. *)
Definition SetMarginLeft (size : Z) (e : Escpos) : Escpos :=
  if size <=? 47
  then snd (Write [0x1D; 0x4C; uint8 (Z.rem size 256); uint8 (Z.quot size 256)] e)
  else e.

(** The [switch] of [SetLang]: the index stays [0] for a code it does not
    list. *)
Definition SetLang (lang : list Z) (e : Escpos) : Escpos :=
  let l :=
    if bytes_eqb lang (str "en") then 0
    else if bytes_eqb lang (str "fr") then 1
    else if bytes_eqb lang (str "de") then 2
    else if bytes_eqb lang (str "uk") then 3
    else if bytes_eqb lang (str "da") then 4
    else if bytes_eqb lang (str "sv") then 5
    else if bytes_eqb lang (str "it") then 6
    else if bytes_eqb lang (str "es") then 7
    else if bytes_eqb lang (str "ja") then 8
    else if bytes_eqb lang (str "no") then 9
    else 0 in
  snd (Write ([0x1B; 0x52] ++ fmt.fmtC (uint64 l)) e).

(** [params] is a [map[string]string], used through lookups only:
    [params k] is [Some v] when the map holds [v] under [k] (a nil map holds
    nothing). *)
Definition FeedAndCut (params : list Z -> option (list Z)) (e : Escpos) : Escpos :=
  let e :=
    match params (str "type") with
    | Some t => if bytes_eqb t (str "feed") then Formfeed e else e
    | None => e
    end in
  Cut e.

End Methods.

(** [data := make([]byte, 1)] is one zero byte; on an error the byte read,
    if any, is dropped. *)
Definition ReadStatus (n : Z) (e : Escpos) : (Z * option error) * Escpos :=
  let (_, e) := WriteRaw [DLE; EOT; n] e in
  let data := [0] in
  let '(_, err, data, e) := ReadRaw data e in
  match err with
  | Some x => ((0, Some x), e)
  | None => ((nth 0 data 0, None), e)
  end.

(** ** Text replacement *)

(** [textReplaceMap], in the order of the source text. *)
Definition textReplaceMap : list (list Z * list Z) :=
  [ (str "&#9;", [0x09]);
    (str "&#x9;", [0x09]);
    (str "&#10;", [0x0A]);
    (str "&#xA;", [0x0A]);
    (str "&apos;", [0x27]);
    (str "&quot;", [0x22]);
    (str "&gt;", str ">");
    (str "&lt;", str "<");
    (str "&amp;", str "&") ].

(** Whether [s] begins with [p]. *)
Fixpoint hasPrefix (p s : list Z) : bool :=
  match p, s with
  | [], _ => true
  | x :: p', y :: s' => (x =? y) && hasPrefix p' s'
  | _ :: _, [] => false
  end.

(** [strings.Replace(s, old, new, -1)] for a non-empty [old], as every key
    of the map is: the occurrences of [old] are found from the left, each
    search starting after the previous occurrence.  [skip] counts the bytes
    of the occurrence just replaced that are still to be stepped over. *)
Fixpoint Replace (old new s : list Z) (skip : nat) : list Z :=
  match s with
  | [] => []
  | c :: rest =>
    match skip with
    | S k => Replace old new rest k
    | O =>
      if hasPrefix old s
      then new ++ Replace old new rest (length old - 1)
      else c :: Replace old new rest 0
    end
  end.

(** [textReplace].  Go visits the entries of a map in an order it does not
    fix; [order] is the order of one execution, a permutation of the
    entries. *)
Definition textReplace (order : list (list Z * list Z)) (data : list Z) : list Z :=
  fold_left (fun data kv => Replace (fst kv) (snd kv) data 0) order data.

(** ** Programs over the encoder

    The fields of [Escpos] are unexported: outside the package an encoder
    changes through its methods only.  A client is a sequence of calls. *)

Inductive op : Type :=
| OpWriteRaw (data : list Z)
| OpReadRaw (data : list Z)
| OpWrite (data : list Z)
| OpSetChineseOn
| OpOpenDrawer
| OpInit
| OpEnd
| OpCut
| OpCutPartial
| OpCash
| OpLinefeed
| OpFormfeedN (n : Z)
| OpFormfeed
| OpSetFont (font : list Z)
| OpSendFontSize
| OpSetFontStyle (style : Z)
| OpSetLetterSpace (n : Z)
| OpSetFontSize (w h : Z)
| OpSetFontColor (color : Z)
| OpSendUnderline
| OpSendEmphasize
| OpSendUpsidedown
| OpSendRotate
| OpSendReverse
| OpSendSmooth
| OpSendMoveX (x : Z)
| OpSendMoveY (y : Z)
| OpSetUnderline (v : Z)
| OpSetEmphasize (v : Z)
| OpSetUpsidedown (v : Z)
| OpSetRotate (v : Z)
| OpSetReverse (v : Z)
| OpSetSmooth (v : Z)
| OpPulse
| OpSetAlign (align : list Z)
| OpSetMarginLeft (size : Z)
| OpSetLang (lang : list Z)
| OpFeedAndCut (params : list Z -> option (list Z))
| OpBarcode (barcode : list Z) (format : Z)
| OpReadStatus (n : Z).

(** The calls that read from the device. *)
Definition reads (o : op) : bool :=
  match o with
  | OpReadRaw _ | OpReadStatus _ => true
  | _ => false
  end.

Section Program.
Context {T : Tables}.

(** One call, its results dropped. *)
Definition exec (o : op) (e : Escpos) : Escpos :=
  match o with
  | OpWriteRaw data => snd (WriteRaw data e)
  | OpReadRaw data => snd (ReadRaw data e)
  | OpWrite data => snd (Write data e)
  | OpSetChineseOn => SetChineseOn e
  | OpOpenDrawer => OpenDrawer e
  | OpInit => Init e
  | OpEnd => End e
  | OpCut => Cut e
  | OpCutPartial => CutPartial e
  | OpCash => Cash e
  | OpLinefeed => Linefeed e
  | OpFormfeedN n => FormfeedN n e
  | OpFormfeed => Formfeed e
  | OpSetFont font => SetFont font e
  | OpSendFontSize => SendFontSize e
  | OpSetFontStyle style => SetFontStyle style e
  | OpSetLetterSpace n => SetLetterSpace n e
  | OpSetFontSize w h => SetFontSize w h e
  | OpSetFontColor color => SetFontColor color e
  | OpSendUnderline => SendUnderline e
  | OpSendEmphasize => SendEmphasize e
  | OpSendUpsidedown => SendUpsidedown e
  | OpSendRotate => SendRotate e
  | OpSendReverse => SendReverse e
  | OpSendSmooth => SendSmooth e
  | OpSendMoveX x => SendMoveX x e
  | OpSendMoveY y => SendMoveY y e
  | OpSetUnderline v => SetUnderline v e
  | OpSetEmphasize v => SetEmphasize v e
  | OpSetUpsidedown v => SetUpsidedown v e
  | OpSetRotate v => SetRotate v e
  | OpSetReverse v => SetReverse v e
  | OpSetSmooth v => SetSmooth v e
  | OpPulse => Pulse e
  | OpSetAlign align => SetAlign align e
  | OpSetMarginLeft size => SetMarginLeft size e
  | OpSetLang lang => SetLang lang e
  | OpFeedAndCut params => FeedAndCut params e
  | OpBarcode barcode format => Barcode barcode format e
  | OpReadStatus n => snd (ReadStatus n e)
  end.

(** The calls of a client, first to last. *)
Definition run (ops : list op) (e : Escpos) : Escpos :=
  fold_left (fun e o => exec o e) ops e.

End Program.

(** A call log entry that is a write. *)
Definition isWrite (c : call) : Prop :=
  match c with
  | CallWrite _ => True
  | CallRead _ => False
  end.

(** ** Devices and tables to run the encoder on *)

(** A device that accepts every write and has nothing to say. *)
Definition silent : ReadWriter :=
  {| log := [];
     onWrite := fun _ p => (len p, None);
     onRead := fun _ _ => ([], Some "EOF"%string) |}.

(** A device whose every write fails and whose reads deliver the status byte
    [0x12]. *)
Definition faulty : ReadWriter :=
  {| log := [];
     onWrite := fun _ _ => (0, Some "write: broken pipe"%string);
     onRead := fun _ _ => ([0x12], None) |}.

(** An excerpt of the library's tables: the two-byte code of U+4E2D, and the
    four-byte indices of U+0080 .. U+00A3, U+00B8 .. U+00D6 and
    U+FFE6 .. U+FFFF (three ranges of the BMP).  Enough to run the encoder
    on Latin and malformed input; other runes are not the library's. *)
Definition excerpt : Tables :=
  {| twoByte := fun r => if r =? 0x4E2D then 0xD6D0 else 0;
     euroByte := false;
     fourByteIndex := fun r =>
       if r <? 0xA4 then r - 0x80
       else if (0xB8 <=? r) && (r <? 0xD7) then r - 0xB8 + 50
       else if 0xFFE6 <=? r then r - 0xFFE6 + 39394
       else 0 |}.

(** ** What a call leaves behind *)

(** The style fields, in the order of the struct. *)
Definition style (e : Escpos) : Z * Z * Z * Z * Z * Z * Z * Z :=
  (width e, height e, underline e, emphasize e, upsidedown e, rotate e,
   reverse e, smooth e).

(** The state after construction or a reset. *)
Definition power_on (e : Escpos) : Prop :=
  width e = 1 /\ height e = 1 /\
  underline e = 0 /\ emphasize e = 0 /\ upsidedown e = 0 /\ rotate e = 0 /\
  reverse e = 0 /\ smooth e = 0.

(** The bytes that reached the device, in order. *)
Definition wire (e : Escpos) : list Z := concat (written (log (dst e))).

(** The call [WriteRaw] makes for a buffer: none for an empty one. *)
Definition writes (p : list Z) : list call :=
  match p with
  | [] => []
  | _ :: _ => [CallWrite p]
  end.

(** The call [e -> e'] made exactly one write on the device: the command
    [cmd] followed by the parameter byte [v]. *)
Definition sends_param (cmd : list Z) (v : Z) (e e' : Escpos) : Prop :=
  log (dst e') = log (dst e) ++ [CallWrite (cmd ++ [v])].

(** The check that [%c] on [c] gives two bytes of UTF-8 that decode back to
    [c]; it holds on [128, 255]. *)
Definition latin1_check (c : Z) : bool :=
  match fmt.fmtC c with
  | [u1; u2] =>
    (0x80 <=? u1) &&
    (let (r, size) := utf8.DecodeRune [u1; u2] in (r =? c) && Nat.eqb size 2)
  | _ => false
  end.

(** The frame a barcode is sent in, as a function of the format: length
    prefixed above 69, NUL terminated below, none at 69. *)
Definition barcodeFrame (barcode : list Z) (format : Z) : list Z :=
  if 69 <? format then
    [0x1D; 0x6B] ++ barcodeCode format ++ fmt.fmtLen (length barcode) ++ barcode
  else if format <? 69 then
    [0x1D; 0x6B] ++ barcodeCode format ++ barcode ++ [0x00]
  else [].

(** The four header bytes of [gSend] for a payload of [l - 2] bytes. *)
Definition gHeader (l m fn : Z) : list Z :=
  [l mod 256; (l / 256) mod 256; m; fn].

(** A payload of 65534 bytes, so that [L + 2 = 65536]. *)
Definition raster : list Z := repeat 0 (Z.to_nat 65534).

(** The index of [x] in [names], counted from [i]; [0] when [x] is not
    among them. *)
Fixpoint indexOr0 (x : list Z) (names : list (list Z)) (i : Z) : Z :=
  match names with
  | [] => 0
  | n :: rest => if bytes_eqb x n then i else indexOr0 x rest (i + 1)
  end.

(** The names [SetFont], [SetAlign] and [SetLang] list, in the order of
    their indices. *)
Definition fontNames : list (list Z) := [str "A"; str "B"; str "C"].
Definition alignNames : list (list Z) := [str "left"; str "center"; str "right"].
Definition langNames : list (list Z) :=
  [str "en"; str "fr"; str "de"; str "uk"; str "da"; str "sv"; str "it";
   str "es"; str "ja"; str "no"].

(** The scale factors a size byte can hold. *)
Definition size_ok (e : Escpos) : Prop :=
  0 <= width e < 8 /\ 0 <= height e < 8.

(** The number of reads in a piece of the call log. *)
Fixpoint readCalls (l : list call) : nat :=
  match l with
  | [] => 0
  | CallRead _ :: l' => S (readCalls l')
  | CallWrite _ :: l' => readCalls l'
  end.

(** From [e] to [e'] the device is the same, its log has grown by some
    calls, and [k] of those are reads. *)
Definition steps (k : nat) (e e' : Escpos) : Prop :=
  onWrite (dst e') = onWrite (dst e) /\
  onRead (dst e') = onRead (dst e) /\
  exists l : list call,
    log (dst e') = log (dst e) ++ l /\ readCalls l = k.

(** The number of reading calls in a program. *)
Definition readOps (ops : list op) : nat := length (filter reads ops).

(** The check that a byte, alone or followed by an ASCII byte, decodes as
    an invalid encoding of width one; it holds for the bytes from [0x80]. *)
Definition lone_check (lo : Z) : bool :=
  (let (r, size) := utf8.DecodeRune [lo] in
   (r =? utf8.RuneError) && Nat.eqb size 1) &&
  forallb
    (fun hi =>
       let (r, size) := utf8.DecodeRune [lo; hi] in
       (r =? utf8.RuneError) && Nat.eqb size 1)
    (map Z.of_nat (seq 0 128)).

(** ** Comparisons on literals *)

Ltac unfold_consts :=
  unfold utf8.RuneSelf, utf8.MaxRune, utf8.RuneError, utf8.rune1Max,
    utf8.rune2Max, utf8.rune3Max, utf8.surrogateMin, utf8.surrogateMax,
    DLE, EOT, GS in *.

Ltac decide_cmp :=
  repeat match goal with
  | |- context [?a <? ?b] =>
      first [ rewrite (proj2 (Z.ltb_lt a b)) by lia
            | rewrite (proj2 (Z.ltb_ge a b)) by lia ]
  | |- context [?a <=? ?b] =>
      first [ rewrite (proj2 (Z.leb_le a b)) by lia
            | rewrite (proj2 (Z.leb_gt a b)) by lia ]
  | |- context [?a =? ?b] =>
      first [ rewrite (proj2 (Z.eqb_eq a b)) by lia
            | rewrite (proj2 (Z.eqb_neq a b)) by lia ]
  end.

Lemma uint8_small (b : Z) : 0 <= b < 256 -> uint8 b = b.
Proof. intros; unfold uint8; apply Z.mod_small; assumption. Qed.

(** ** The library models on known values *)

Example fmtC_values :
  fmt.fmtC 65 = [0x41] /\
  fmt.fmtC 200 = [0xC3; 0x88] /\
  fmt.fmtC 256 = [0xC4; 0x80] /\
  fmt.fmtC 0x4E2D = [0xE4; 0xB8; 0xAD] /\
  fmt.fmtC 0x1F600 = [0xF0; 0x9F; 0x98; 0x80] /\
  fmt.fmtC (uint64 (-1)) = [0xEF; 0xBF; 0xBD].
Proof. repeat split. Qed.

Example DecodeRune_values :
  utf8.DecodeRune [0x41] = (0x41, 1%nat) /\
  utf8.DecodeRune [0xC3; 0x88] = (200, 2%nat) /\
  utf8.DecodeRune [0xE4; 0xB8; 0xAD] = (0x4E2D, 3%nat) /\
  utf8.DecodeRune [0xF0; 0x9F; 0x98; 0x80] = (0x1F600, 4%nat) /\
  utf8.DecodeRune [0xFA] = (utf8.RuneError, 1%nat) /\
  utf8.DecodeRune [0xC3] = (utf8.RuneError, 1%nat) /\
  utf8.DecodeRune [0xED; 0xA0; 0x80] = (utf8.RuneError, 1%nat).
Proof. repeat split. Qed.

Example fmtLen_values :
  fmt.fmtLen 0 = str "0" /\ fmt.fmtLen 5 = str "5" /\
  fmt.fmtLen 120 = str "120".
Proof. repeat split. Qed.

(** U+0080, U+4E2D, U+FFFD and U+1F600 in GB18030. *)
Example ReadAll_values :
  gb18030.ReadAll (T := excerpt) [0xC2; 0x80] = ([0x81; 0x30; 0x81; 0x30], None) /\
  gb18030.ReadAll (T := excerpt) [0xE4; 0xB8; 0xAD] = ([0xD6; 0xD0], None) /\
  gb18030.ReadAll (T := excerpt) [0xEF; 0xBF; 0xBD] = ([0x84; 0x31; 0xA4; 0x37], None) /\
  gb18030.ReadAll (T := excerpt) [0xF0; 0x9F; 0x98; 0x80] = ([0x94; 0x39; 0xFC; 0x36], None).
Proof. repeat split. Qed.

(** ** The text path on ASCII *)

Lemma fmtC_ascii (c : Z) : 0 <= c < 128 -> fmt.fmtC c = [c].
Proof.
  intros Hc. unfold fmt.fmtC, utf8.AppendRune. unfold_consts.
  decide_cmp. rewrite uint8_small by lia. reflexivity.
Qed.

Lemma written_app (l1 l2 : list call) :
  written (l1 ++ l2) = written l1 ++ written l2.
Proof.
  induction l1 as [|c l1 IH]; [reflexivity|].
  destruct c; simpl; rewrite IH; reflexivity.
Qed.

Lemma written_writes (p : list Z) : concat (written (writes p)) = p.
Proof. destruct p; simpl; [reflexivity|]. rewrite app_nil_r; reflexivity. Qed.

Lemma WriteRaw_eq (data : list Z) (e : Escpos) :
  WriteRaw data e =
  ((0, None),
   match data with
   | [] => e
   | _ :: _ => with_dst (logged (CallWrite data) (dst e)) e
   end).
Proof. destruct data; reflexivity. Qed.

Lemma WriteRaw_style (data : list Z) (e : Escpos) :
  style (snd (WriteRaw data e)) = style e.
Proof. rewrite WriteRaw_eq; destruct data; reflexivity. Qed.

Lemma WriteRaw_log (data : list Z) (e : Escpos) :
  log (dst (snd (WriteRaw data e))) = log (dst e) ++ writes data.
Proof.
  rewrite WriteRaw_eq; destruct data; simpl; [rewrite app_nil_r|]; reflexivity.
Qed.

Lemma wire_one_write (e e' : Escpos) (p : list Z) :
  log (dst e') = log (dst e) ++ [CallWrite p] -> wire e' = wire e ++ p.
Proof.
  intros H. unfold wire. rewrite H, written_app, concat_app.
  cbn [written concat]. rewrite app_nil_r. reflexivity.
Qed.

Section TextPath.
Context {T : Tables}.

Lemma ReadAll_ascii (s : list Z) : ascii s -> gb18030.ReadAll s = (s, None).
Proof.
  unfold gb18030.ReadAll.
  induction 1 as [|c s Hc _ IH]; [reflexivity|].
  cbn [gb18030.Transform]. unfold gb18030.encodeRune. unfold_consts.
  decide_cmp. cbn [Nat.sub]. rewrite IH, uint8_small by lia. reflexivity.
Qed.

Lemma Write_eq (s : list Z) (e : Escpos) :
  Write s e = WriteRaw (fst (gb18030.ReadAll s)) e.
Proof. unfold Write; destruct (gb18030.ReadAll s); reflexivity. Qed.

Lemma Write_style (s : list Z) (e : Escpos) :
  style (snd (Write s e)) = style e.
Proof. rewrite Write_eq; apply WriteRaw_style. Qed.

Lemma Write_log (s : list Z) (e : Escpos) :
  log (dst (snd (Write s e))) =
  log (dst e) ++ writes (fst (gb18030.ReadAll s)).
Proof. rewrite Write_eq; apply WriteRaw_log. Qed.

Lemma Write_ascii_log (s : list Z) (e : Escpos) :
  ascii s -> log (dst (snd (Write s e))) = log (dst e) ++ writes s.
Proof. intros Hs; rewrite Write_log, ReadAll_ascii by assumption; reflexivity. Qed.

Lemma wire_Write (s : list Z) (e : Escpos) :
  wire (snd (Write s e)) = wire e ++ fst (gb18030.ReadAll s).
Proof.
  unfold wire. rewrite Write_log, written_app, concat_app, written_writes.
  reflexivity.
Qed.

End TextPath.

Lemma ascii_app (s t : list Z) : ascii s -> ascii t -> ascii (s ++ t).
Proof. unfold ascii; intros; apply Forall_app; split; assumption. Qed.

Lemma ascii_cons (b : Z) (s : list Z) : 0 <= b < 128 -> ascii s -> ascii (b :: s).
Proof. unfold ascii; intros; constructor; assumption. Qed.

Lemma ascii_nil : ascii [].
Proof. constructor. Qed.

Ltac solve_ascii :=
  repeat first [ assumption | apply ascii_nil | apply ascii_cons
               | apply ascii_app | lia ].

(** The packed size byte of two scale factors below 8 is an ASCII byte, and
    the shift does not overflow the [uint8]. *)
Lemma packed_small (w h : Z) :
  0 <= w < 8 -> 0 <= h < 8 ->
  Z.lor (uint8 (Z.shiftl w 4)) h = Z.lor (Z.shiftl w 4) h /\
  0 <= Z.lor (Z.shiftl w 4) h < 128.
Proof.
  intros Hw Hh.
  assert (Ew : w = 0 \/ w = 1 \/ w = 2 \/ w = 3 \/ w = 4 \/ w = 5 \/ w = 6 \/ w = 7) by lia.
  assert (Eh : h = 0 \/ h = 1 \/ h = 2 \/ h = 3 \/ h = 4 \/ h = 5 \/ h = 6 \/ h = 7) by lia.
  repeat (destruct Ew as [Ew|Ew]; [subst w|]); try subst w;
    repeat (destruct Eh as [Eh|Eh]; [subst h|]); try subst h;
    vm_compute; repeat split; congruence.
Qed.

(** ** Font size *)

Lemma style_fields (e e' : Escpos) :
  style e' = style e ->
  width e' = width e /\ height e' = height e /\
  underline e' = underline e /\ emphasize e' = emphasize e /\
  upsidedown e' = upsidedown e /\ rotate e' = rotate e /\
  reverse e' = reverse e /\ smooth e' = smooth e.
Proof.
  unfold style; intros H; injection H; intros; repeat split; assumption.
Qed.

(** C1.  For scale factors [w] and [h] in [0, 7], [SetFontSize w h] stores
    both, and the only call it makes on the device is one write of
    [GS ! b] with [b = (w << 4) | h]; no other field changes.  When either
    factor is 8 or more the call changes nothing and reaches the device
    with nothing. *)
Theorem SetFontSize_spec (T : Tables) (e : Escpos) (w h : Z) :
  (0 <= w < 8 -> 0 <= h < 8 ->
     width (SetFontSize w h e) = w /\
     height (SetFontSize w h e) = h /\
     log (dst (SetFontSize w h e)) =
       log (dst e) ++ [CallWrite [0x1D; 0x21; Z.lor (Z.shiftl w 4) h]] /\
     style (SetFontSize w h e) =
       (w, h, underline e, emphasize e, upsidedown e, rotate e, reverse e,
        smooth e)) /\
  (8 <= w \/ 8 <= h -> SetFontSize w h e = e).
Proof.
  split.
  - intros Hw Hh. unfold SetFontSize. decide_cmp. cbn [andb].
    unfold SendFontSize. cbn [width height].
    destruct (packed_small w h Hw Hh) as [Hp Hb]. rewrite Hp.
    rewrite fmtC_ascii by assumption.
    match goal with |- context [Write ?s ?e0] =>
      pose proof (Write_style s e0) as Hs;
      pose proof (Write_ascii_log s e0) as Hl;
      destruct (style_fields _ _ Hs) as (Ew & Eh & _)
    end.
    rewrite Hs, Hl, Ew, Eh by solve_ascii.
    repeat split; reflexivity.
  - intros Hbig. unfold SetFontSize.
    destruct Hbig; decide_cmp; rewrite ?andb_false_r; reflexivity.
Qed.

(** C1 at [w = 2], [h = 3] on a fresh encoder: the packed byte is [0x23]. *)
Lemma SetFontSize_spec_witness :
  width (SetFontSize (T := excerpt) 2 3 (New silent)) = 2 /\
  height (SetFontSize (T := excerpt) 2 3 (New silent)) = 3 /\
  log (dst (SetFontSize (T := excerpt) 2 3 (New silent))) =
    [CallWrite [0x1D; 0x21; 0x23]] /\
  SetFontSize (T := excerpt) 9 3 (New silent) = New silent.
Proof.
  destruct (SetFontSize_spec excerpt (New silent) 2 3) as [Hin _].
  destruct (SetFontSize_spec excerpt (New silent) 9 3) as [_ Hout].
  destruct (Hin ltac:(lia) ltac:(lia)) as (Hw & Hh & Hl & _).
  split; [exact Hw | split; [exact Hh | split; [exact Hl | apply Hout; lia]]].
Defined.

(** ** Reset *)

Lemma power_on_style (e : Escpos) :
  power_on e <-> style e = (1, 1, 0, 0, 0, 0, 0, 0).
Proof.
  unfold power_on, style; split.
  - intros (-> & -> & -> & -> & -> & -> & -> & ->); reflexivity.
  - intros H; inversion H; repeat split; reflexivity.
Qed.

Section Lifecycle.
Context {T : Tables}.

Lemma SetAlign_style (align : list Z) (e : Escpos) :
  style (SetAlign align e) = style e.
Proof. unfold SetAlign; apply Write_style. Qed.

Lemma Barcode_style (barcode : list Z) (format : Z) (e : Escpos) :
  style (Barcode barcode format e) = style (reset e).
Proof.
  unfold Barcode. rewrite Write_style.
  destruct (69 <? format); [|destruct (format <? 69)];
    rewrite ?Write_style; apply SetAlign_style.
Qed.

End Lifecycle.

(** C2.  A new encoder, and an encoder just after [reset], [Init] or
    [Barcode], has width and height 1 and every toggle 0. *)
Theorem power_on_after_reset (T : Tables) (d : ReadWriter) (e : Escpos)
    (barcode : list Z) (format : Z) :
  power_on (New d) /\
  power_on (reset e) /\
  power_on (Init e) /\
  power_on (Barcode barcode format e).
Proof.
  split; [|split; [|split]]; apply power_on_style.
  - reflexivity.
  - reflexivity.
  - unfold Init. rewrite Write_style. reflexivity.
  - rewrite Barcode_style. reflexivity.
Qed.

(** ** The text path beyond ASCII *)

Section Wide.
Context {T : Tables}.

Lemma encodeRune_ascii (c : Z) :
  0 <= c < 128 -> gb18030.encodeRune c = Some [c].
Proof.
  intros Hc. unfold gb18030.encodeRune. unfold_consts. decide_cmp.
  rewrite uint8_small by lia. reflexivity.
Qed.

(** A rune from [0x80] up, the euro sign apart, takes two or four bytes, in
    every table. *)
Lemma encodeRune_wide (r : Z) :
  128 <= r < 0x110000 -> r <> 0x20AC ->
  exists code : list Z,
    gb18030.encodeRune r = Some code /\
    (length code = 2%nat \/ length code = 4%nat).
Proof.
  intros Hr Heuro. unfold gb18030.encodeRune. unfold_consts. decide_cmp.
  rewrite andb_false_r.
  destruct (twoByte r =? 0); cbn [negb].
  - destruct (Z.ltb_spec r 0x10000); decide_cmp;
      eexists; (split; [reflexivity | right; reflexivity]).
  - eexists; split; [reflexivity | left; reflexivity].
Qed.

End Wide.

(** Runs the transcoder on a literal command whose only rune outside ASCII
    has the code [Hcode : encodeRune r = Some code]. *)
Ltac run_text Hcode :=
  rewrite Write_log; unfold gb18030.ReadAll;
  cbn -[gb18030.encodeRune];
  rewrite ?encodeRune_ascii by lia;
  rewrite Hcode;
  cbn -[gb18030.encodeRune];
  rewrite ?app_nil_r.

Lemma not_single (code : list Z) (b : Z) :
  length code = 2%nat \/ length code = 4%nat -> code <> [b].
Proof. intros [H|H] ->; discriminate H. Qed.

(** ** End marker and cash pulse *)

(** C3, as the code has it.  The byte [0xFA] of [End] and the byte [0xFF]
    of [Cash] are not UTF-8, so the transcoder reads each as U+FFFD and the
    device receives the GB18030 code of U+FFFD in its place: two or four
    bytes, whatever the tables.  The wire never carries the single byte
    [0xFA] for [End], nor [1B 70 00 0A FF] for [Cash]. *)
Theorem End_Cash_transcoded (T : Tables) (e : Escpos) :
  exists code : list Z,
    gb18030.encodeRune utf8.RuneError = Some code /\
    (length code = 2%nat \/ length code = 4%nat) /\
    log (dst (End e)) = log (dst e) ++ [CallWrite code] /\
    log (dst (Cash e)) =
      log (dst e) ++ [CallWrite ([0x1B; 0x70; 0x00; 0x0A] ++ code)] /\
    wire (End e) <> wire e ++ [0xFA] /\
    wire (Cash e) <> wire e ++ [0x1B; 0x70; 0x00; 0x0A; 0xFF].
Proof.
  destruct (encodeRune_wide utf8.RuneError) as (code & Hcode & Hlen);
    [unfold_consts; lia | unfold_consts; lia |].
  assert (HEnd : log (dst (End e)) = log (dst e) ++ [CallWrite code]).
  { unfold End. run_text Hcode.
    destruct code; [destruct Hlen; discriminate | reflexivity]. }
  assert (HCash : log (dst (Cash e)) =
                  log (dst e) ++ [CallWrite ([0x1B; 0x70; 0x00; 0x0A] ++ code)]).
  { unfold Cash. run_text Hcode. reflexivity. }
  exists code. repeat (split; [assumption|]). split.
  - rewrite (wire_one_write _ _ _ HEnd). intros H. apply app_inv_head in H.
    revert H. apply not_single, Hlen.
  - rewrite (wire_one_write _ _ _ HCash). intros H. apply app_inv_head in H.
    injection H as H. revert H. apply not_single, Hlen.
Qed.

(** With the library's entries for U+FFFD the bytes are [84 31 A4 37]. *)
Example End_excerpt :
  log (dst (End (T := excerpt) (New silent))) =
    [CallWrite [0x84; 0x31; 0xA4; 0x37]] /\
  log (dst (Cash (T := excerpt) (New silent))) =
    [CallWrite [0x1B; 0x70; 0x00; 0x0A; 0x84; 0x31; 0xA4; 0x37]].
Proof. split; reflexivity. Qed.

(** The sibling [OpenDrawer] sends its pulse through [WriteRaw], byte for
    byte. *)
Lemma OpenDrawer_log (e : Escpos) :
  log (dst (OpenDrawer e)) =
  log (dst e) ++ [CallWrite [0x1B; 0x70; 0x00; 0x0A; 0x0A]].
Proof. unfold OpenDrawer. rewrite WriteRaw_log. reflexivity. Qed.

(** The sibling [SetFontColor] sends its parameter through [WriteRaw], so
    every byte value arrives as it is. *)
Lemma SetFontColor_log (color : Z) (e : Escpos) :
  0 <= color < 256 ->
  log (dst (SetFontColor color e)) =
  log (dst e) ++ [CallWrite [0x1B; 0x72; color]].
Proof.
  intros Hc. unfold SetFontColor.
  rewrite WriteRaw_log, uint8_small by assumption. reflexivity.
Qed.

(** ** Form feed *)

Lemma uint64_small (n : Z) : 0 <= n < 128 -> uint64 n = n.
Proof.
  intros; unfold uint64; apply Z.mod_small.
  change (2 ^ 64) with 18446744073709551616; lia.
Qed.

(** C4, amended.  For a count [n] in [0, 127], [FormfeedN n] makes one write
    of the three bytes [ESC d n]. *)
Theorem FormfeedN_ascii_count (T : Tables) (e : Escpos) (n : Z) :
  0 <= n < 128 ->
  log (dst (FormfeedN n e)) = log (dst e) ++ [CallWrite [0x1B; 0x64; n]].
Proof.
  intros Hn. unfold FormfeedN.
  rewrite uint64_small, fmtC_ascii, Write_ascii_log by solve_ascii.
  reflexivity.
Qed.

(** C4 at [n = 3]: [ESC d 03]. *)
Lemma FormfeedN_ascii_count_witness :
  log (dst (FormfeedN (T := excerpt) 3 (New silent))) =
    [CallWrite [0x1B; 0x64; 3]].
Proof. apply (FormfeedN_ascii_count excerpt (New silent) 3); lia. Defined.

(** C4 as stated fails at [n = 256]: [%c] formats the count as the code
    point U+0100, whose GB18030 code has two or four bytes, so what follows
    [ESC d] on the wire is no single byte, for any tables: not the
    truncated count [0] and no other. *)
Lemma FormfeedN_no_truncation :
  ~ exists (T : Tables) (b : Z),
      wire (FormfeedN 256 (New silent)) = [0x1B; 0x64; b].
Proof.
  intros (T & b & H).
  destruct (encodeRune_wide 256) as (code & Hcode & Hlen); [lia | lia |].
  revert H. unfold wire, FormfeedN. run_text Hcode.
  intros H. injection H as H. revert H. apply not_single, Hlen.
Qed.

(** With the library's entries the count 128 goes out as [81 30 81 30]. *)
Example FormfeedN_excerpt :
  wire (FormfeedN (T := excerpt) 128 (New silent)) =
    [0x1B; 0x64; 0x81; 0x30; 0x81; 0x30].
Proof. reflexivity. Qed.

(** ** Toggles *)

Lemma latin1_checked :
  forallb latin1_check (map Z.of_nat (seq 128 128)) = true.
Proof. vm_compute. reflexivity. Qed.

Lemma fmtC_latin1 (c : Z) :
  128 <= c < 256 ->
  exists u1 u2 : Z,
    fmt.fmtC c = [u1; u2] /\ 128 <= u1 /\
    utf8.DecodeRune [u1; u2] = (c, 2%nat).
Proof.
  intros Hc.
  assert (Hin : In c (map Z.of_nat (seq 128 128))).
  { apply in_map_iff. exists (Z.to_nat c). split; [lia|].
    apply in_seq. lia. }
  pose proof (proj1 (forallb_forall _ _) latin1_checked c Hin) as Hk.
  unfold latin1_check in Hk.
  destruct (fmt.fmtC c) as [|u1 [|u2 [|? ?]]]; try discriminate Hk.
  apply andb_prop in Hk. destruct Hk as [H1 H2].
  destruct (utf8.DecodeRune [u1; u2]) as [r size] eqn:Hd.
  apply andb_prop in H2. destruct H2 as [Hr Hs].
  apply Z.eqb_eq in Hr. apply Nat.eqb_eq in Hs. apply Z.leb_le in H1.
  exists u1, u2. split; [reflexivity|]. split; [lia|].
  rewrite Hd, Hr, Hs. reflexivity.
Qed.

Section Toggles.
Context {T : Tables}.

(** The transcoder on a two-byte command followed by one two-byte rune. *)
Lemma ReadAll_command_rune (a b u1 u2 r : Z) (code : list Z) :
  0 <= a < 128 -> 0 <= b < 128 -> 128 <= u1 ->
  utf8.DecodeRune [u1; u2] = (r, 2%nat) ->
  gb18030.encodeRune r = Some code ->
  gb18030.ReadAll [a; b; u1; u2] = ([a; b] ++ code, None).
Proof.
  intros Ha Hb Hu Hdec Hcode. unfold gb18030.ReadAll.
  cbn -[gb18030.encodeRune utf8.DecodeRune Z.ltb].
  unfold_consts. decide_cmp. rewrite Hdec.
  rewrite !encodeRune_ascii, Hcode by assumption.
  cbn. rewrite app_nil_r. reflexivity.
Qed.

(** A command with a parameter in [128, 255] reaches the device with the
    parameter replaced by a code of two or four bytes. *)
Lemma Write_high_param (a b v : Z) (e : Escpos) :
  0 <= a < 128 -> 0 <= b < 128 -> 128 <= v < 256 ->
  wire (snd (Write ([a; b] ++ fmt.fmtC v) e)) <> wire e ++ [a; b; v].
Proof.
  intros Ha Hb Hv.
  destruct (fmtC_latin1 v Hv) as (u1 & u2 & Hfmt & Hu & Hdec).
  destruct (encodeRune_wide v) as (code & Hcode & Hlen); [lia | lia |].
  rewrite wire_Write, Hfmt. cbn [app].
  rewrite (ReadAll_command_rune a b u1 u2 v code) by assumption.
  cbn [fst app]. intros H. apply app_inv_head in H.
  injection H as H. revert H. apply not_single, Hlen.
Qed.

(** A command with a parameter in [0, 127] reaches the device as it is. *)
Lemma Write_low_param (a b v : Z) (e : Escpos) :
  0 <= a < 128 -> 0 <= b < 128 -> 0 <= v < 128 ->
  sends_param [a; b] v e (snd (Write ([a; b] ++ fmt.fmtC v) e)).
Proof.
  intros Ha Hb Hv. unfold sends_param.
  rewrite fmtC_ascii, Write_ascii_log by solve_ascii. reflexivity.
Qed.

End Toggles.

(** C5, as the code has it.  Each toggle setter stores [v], but for [v] in
    [128, 255] the bytes it adds to the wire are not its command followed
    by the byte [v]: [%c] turns [v] into the two UTF-8 bytes of the code
    point and the transcoder turns those into a GB18030 code. *)
Theorem toggle_setters_high_value (T : Tables) (e : Escpos) (v : Z) :
  128 <= v < 256 ->
  (underline (SetUnderline v e) = v /\
   wire (SetUnderline v e) <> wire e ++ [0x1B; 0x2D; v]) /\
  (emphasize (SetEmphasize v e) = v /\
   wire (SetEmphasize v e) <> wire e ++ [0x1B; 0x47; v]) /\
  (upsidedown (SetUpsidedown v e) = v /\
   wire (SetUpsidedown v e) <> wire e ++ [0x1B; 0x7B; v]) /\
  (rotate (SetRotate v e) = v /\
   wire (SetRotate v e) <> wire e ++ [0x1B; 0x52; v]) /\
  (reverse (SetReverse v e) = v /\
   wire (SetReverse v e) <> wire e ++ [0x1D; 0x42; v]) /\
  (smooth (SetSmooth v e) = v /\
   wire (SetSmooth v e) <> wire e ++ [0x1D; 0x62; v]).
Proof.
  intros Hv.
  unfold SetUnderline, SendUnderline, SetEmphasize, SendEmphasize,
    SetUpsidedown, SendUpsidedown, SetRotate, SendRotate,
    SetReverse, SendReverse, SetSmooth, SendSmooth.
  cbn [underline emphasize upsidedown rotate reverse smooth].
  repeat match goal with
  | |- _ /\ _ => split
  | |- wire (snd (Write ?s ?e0)) <> _ =>
      change (wire e) with (wire e0);
      apply (Write_high_param _ _ v e0); lia
  | |- _ (snd (Write ?s ?e0)) = v =>
      apply (style_fields _ _ (Write_style s e0))
  end.
Qed.

(** C5 at [v = 200]. *)
Lemma toggle_setters_high_value_witness :
  underline (SetUnderline (T := excerpt) 200 (New silent)) = 200 /\
  wire (SetUnderline (T := excerpt) 200 (New silent)) <>
    wire (New silent) ++ [0x1B; 0x2D; 200].
Proof.
  exact (proj1 (toggle_setters_high_value excerpt (New silent) 200
                  ltac:(lia))).
Defined.

(** With the library's entries, [SetUnderline(128)] writes
    [ESC - 81 30 81 30]. *)
Example SetUnderline_excerpt :
  log (dst (SetUnderline (T := excerpt) 128 (New silent))) =
    [CallWrite [0x1B; 0x2D; 0x81; 0x30; 0x81; 0x30]] /\
  log (dst (SetUnderline (T := excerpt) 200 (New silent))) =
    [CallWrite [0x1B; 0x2D; 0x81; 0x30; 0x87; 0x36]].
Proof. split; reflexivity. Qed.

(** For [v] in [0, 127] every toggle setter stores [v] and writes its
    command with the parameter byte [v]. *)
Lemma toggle_setters_ascii (T : Tables) (e : Escpos) (v : Z) :
  0 <= v < 128 ->
  (underline (SetUnderline v e) = v /\
   sends_param [0x1B; 0x2D] v e (SetUnderline v e)) /\
  (emphasize (SetEmphasize v e) = v /\
   sends_param [0x1B; 0x47] v e (SetEmphasize v e)) /\
  (upsidedown (SetUpsidedown v e) = v /\
   sends_param [0x1B; 0x7B] v e (SetUpsidedown v e)) /\
  (rotate (SetRotate v e) = v /\
   sends_param [0x1B; 0x52] v e (SetRotate v e)) /\
  (reverse (SetReverse v e) = v /\
   sends_param [0x1D; 0x42] v e (SetReverse v e)) /\
  (smooth (SetSmooth v e) = v /\
   sends_param [0x1D; 0x62] v e (SetSmooth v e)).
Proof.
  intros Hv.
  unfold SetUnderline, SendUnderline, SetEmphasize, SendEmphasize,
    SetUpsidedown, SendUpsidedown, SetRotate, SendRotate,
    SetReverse, SendReverse, SetSmooth, SendSmooth.
  cbn [underline emphasize upsidedown rotate reverse smooth].
  repeat match goal with
  | |- _ /\ _ => split
  | |- sends_param _ _ e (snd (Write _ ?e0)) =>
      apply (Write_low_param _ _ v e0); lia
  | |- _ (snd (Write ?s ?e0)) = v =>
      apply (style_fields _ _ (Write_style s e0))
  end.
Qed.

(** [SetReverse(1)] writes [GS B 01]. *)
Lemma toggle_setters_ascii_witness :
  reverse (SetReverse (T := excerpt) 1 (New silent)) = 1 /\
  sends_param [0x1D; 0x42] 1 (New silent)
    (SetReverse (T := excerpt) 1 (New silent)).
Proof.
  destruct (toggle_setters_ascii excerpt (New silent) 1 ltac:(lia))
    as (_ & _ & _ & _ & Hrev & _).
  exact Hrev.
Defined.

(** ** Barcode *)

Lemma ascii_barcodeCode (format : Z) : ascii (barcodeCode format).
Proof.
  unfold barcodeCode.
  repeat match goal with |- context [if ?b then _ else _] => destruct b end;
    solve_ascii.
Qed.

Lemma ascii_digits (d : Decimal.uint) : ascii (fmt.digits d).
Proof. induction d; cbn [fmt.digits]; solve_ascii. Qed.

Lemma ascii_barcodeFrame (barcode : list Z) (format : Z) :
  ascii barcode -> ascii (barcodeFrame barcode format).
Proof.
  intros Hb. unfold barcodeFrame, fmt.fmtLen.
  pose proof (ascii_barcodeCode format).
  pose proof (ascii_digits (Nat.to_uint (length barcode))).
  destruct (69 <? format); [|destruct (format <? 69)]; solve_ascii.
Qed.

Section BarcodeText.
Context {T : Tables}.

Lemma SetAlign_center_log (e : Escpos) :
  log (dst (SetAlign (str "center") e)) =
  log (dst e) ++ [CallWrite [0x1B; 0x61; 0x01]].
Proof.
  unfold SetAlign.
  change (bytes_eqb (str "center") (str "left")) with false.
  change (bytes_eqb (str "center") (str "center")) with true.
  cbv iota. rewrite uint64_small, fmtC_ascii, Write_ascii_log by solve_ascii.
  reflexivity.
Qed.

(** The calls of [Barcode], whatever the text: the alignment command, the
    transcoded frame, the transcoded text. *)
Lemma Barcode_log (barcode : list Z) (format : Z) (e : Escpos) :
  log (dst (Barcode barcode format e)) =
  log (dst e) ++ [CallWrite [0x1B; 0x61; 0x01]]
    ++ writes (fst (gb18030.ReadAll (barcodeFrame barcode format)))
    ++ writes (fst (gb18030.ReadAll barcode)).
Proof.
  unfold Barcode, barcodeFrame. rewrite Write_log.
  destruct (69 <? format); [|destruct (format <? 69)];
    rewrite ?Write_log, SetAlign_center_log; cbn [reset dst];
    rewrite <- ?app_assoc; reflexivity.
Qed.

End BarcodeText.

(** C6, amended.  For a barcode text of ASCII bytes and any format,
    [Barcode] leaves the style fields reset and makes these writes and no
    other call: the centre alignment command [ESC a 01]; the frame, which
    is [GS k code len text] with [len] in decimal when [format > 69],
    [GS k code text NUL] when [format < 69], and absent when
    [format = 69]; and the text once more.  The bytes on the wire are
    those, in that order. *)
Theorem Barcode_ascii (T : Tables) (e : Escpos) (barcode : list Z) (format : Z) :
  ascii barcode ->
  power_on (Barcode barcode format e) /\
  log (dst (Barcode barcode format e)) =
    log (dst e) ++ [CallWrite [0x1B; 0x61; 0x01]]
      ++ writes (barcodeFrame barcode format) ++ writes barcode /\
  wire (Barcode barcode format e) =
    wire e ++ [0x1B; 0x61; 0x01] ++ barcodeFrame barcode format ++ barcode.
Proof.
  intros Hb.
  assert (Hlog : log (dst (Barcode barcode format e)) =
                 log (dst e) ++ [CallWrite [0x1B; 0x61; 0x01]]
                   ++ writes (barcodeFrame barcode format) ++ writes barcode).
  { rewrite Barcode_log, !ReadAll_ascii
      by (try apply ascii_barcodeFrame; assumption).
    reflexivity. }
  split; [|split].
  - apply power_on_style. rewrite Barcode_style. reflexivity.
  - exact Hlog.
  - unfold wire. rewrite Hlog, !written_app, !concat_app, !written_writes.
    cbn [written concat app]. reflexivity.
Qed.

(** C6 on the text ["12345"] in format 3: [ESC a 01], then
    [GS k 03 "12345" 00], then ["12345"]. *)
Lemma Barcode_ascii_witness :
  wire (Barcode (T := excerpt) (str "12345") 3 (New silent)) =
    [0x1B; 0x61; 0x01] ++ ([0x1D; 0x6B; 0x03] ++ str "12345" ++ [0x00])
      ++ str "12345".
Proof.
  refine (proj2 (proj2 (Barcode_ascii excerpt (New silent) (str "12345") 3 _))).
  vm_compute. repeat constructor; discriminate.
Defined.

(** In format 73 the frame is [GS k 49 "5" "12345"]. *)
Example Barcode_length_prefixed :
  log (dst (Barcode (T := excerpt) (str "12345") 73 (New silent))) =
    [CallWrite [0x1B; 0x61; 0x01];
     CallWrite ([0x1D; 0x6B; 0x49] ++ str "5" ++ str "12345");
     CallWrite (str "12345")].
Proof. reflexivity. Qed.

(** C6 as stated fails on a text outside ASCII.  For the one character
    U+4E2D (UTF-8 [E4 B8 AD]) in format 3 the wire does not carry
    [ESC a 01], [GS k 03 E4 B8 AD 00], [E4 B8 AD]: the text goes out in
    its GB18030 code, of two or four bytes, for any tables. *)
Lemma Barcode_text_transcoded :
  ~ exists T : Tables,
      wire (Barcode [0xE4; 0xB8; 0xAD] 3 (New silent)) =
        [0x1B; 0x61; 0x01] ++ ([0x1D; 0x6B; 0x03] ++ [0xE4; 0xB8; 0xAD] ++ [0x00])
          ++ [0xE4; 0xB8; 0xAD].
Proof.
  intros (T & H).
  destruct (encodeRune_wide 0x4E2D) as (code & Hcode & Hlen); [lia | lia |].
  revert H. unfold wire. rewrite Barcode_log.
  unfold gb18030.ReadAll, barcodeFrame.
  cbn -[gb18030.encodeRune].
  rewrite ?encodeRune_ascii by lia. rewrite Hcode.
  cbn -[gb18030.encodeRune]. rewrite ?app_nil_r.
  intros H. apply (f_equal (@length Z)) in H. revert H.
  destruct code as [|c1 [|c2 [|c3 [|c4 [|? ?]]]]];
    cbn in Hlen |- *; destruct Hlen; try discriminate.
Qed.

(** With the library's entry for U+4E2D the text goes out as [D6 D0]. *)
Example Barcode_excerpt :
  log (dst (Barcode (T := excerpt) [0xE4; 0xB8; 0xAD] 3 (New silent))) =
    [CallWrite [0x1B; 0x61; 0x01];
     CallWrite [0x1D; 0x6B; 0x03; 0xD6; 0xD0; 0x00];
     CallWrite [0xD6; 0xD0]].
Proof. reflexivity. Qed.

(** ** Graphics frame *)

Section Graphics.
Context {T : Tables}.

Lemma gSend_log (m fn : Z) (data : list Z) (e : Escpos) :
  log (dst (gSend m fn data e)) =
  log (dst e)
    ++ [CallWrite [0x1B; 0x28; 0x4C]; CallWrite (gHeader (len data + 2) m fn)]
    ++ writes data.
Proof.
  unfold gSend, gHeader. rewrite !WriteRaw_log, Write_ascii_log by solve_ascii.
  assert (Hl : 0 <= len data + 2) by (unfold len; lia).
  rewrite Z.rem_mod_nonneg, Z.quot_div_nonneg by lia.
  unfold uint8. rewrite Z.mod_mod by lia.
  cbn [writes]. rewrite <- !app_assoc. reflexivity.
Qed.

Lemma gSend_wire (m fn : Z) (data : list Z) (e : Escpos) :
  wire (gSend m fn data e) =
  wire e ++ [0x1B; 0x28; 0x4C] ++ gHeader (len data + 2) m fn ++ data.
Proof.
  unfold wire. rewrite gSend_log, !written_app, !concat_app, written_writes.
  cbn [written concat app gHeader]. rewrite <- ?app_assoc. reflexivity.
Qed.

End Graphics.

(** C7, amended.  [gSend m fn data] with [L = len(data)] makes these writes
    and no other call: the prefix [ESC ( L], the header
    [(L+2) % 256, ((L+2) / 256) % 256, m, fn], and [data] as it is (no
    write for an empty [data]).  The second header byte is [(L+2) / 256]
    itself as long as [L + 2] fits sixteen bits. *)
Theorem gSend_frame (T : Tables) (e : Escpos) (m fn : Z) (data : list Z) :
  log (dst (gSend m fn data e)) =
    log (dst e)
      ++ [CallWrite [0x1B; 0x28; 0x4C];
          CallWrite [(len data + 2) mod 256; ((len data + 2) / 256) mod 256; m; fn]]
      ++ writes data /\
  wire (gSend m fn data e) =
    wire e ++ [0x1B; 0x28; 0x4C]
      ++ [(len data + 2) mod 256; ((len data + 2) / 256) mod 256; m; fn]
      ++ data /\
  (len data + 2 < 65536 ->
   gHeader (len data + 2) m fn =
     [(len data + 2) mod 256; (len data + 2) / 256; m; fn]).
Proof.
  split; [|split].
  - apply gSend_log.
  - apply gSend_wire.
  - intros Hl. unfold gHeader. rewrite (Z.mod_small (_ / 256)); [reflexivity|].
    unfold len in *. split; [apply Z.div_pos; lia|].
    apply Z.div_lt_upper_bound; lia.
Qed.

(** C7 on three bytes of data: the header is [05 00 m fn]. *)
Lemma gSend_frame_witness :
  log (dst (gSend (T := excerpt) 0x30 0x70 [1; 2; 3] (New silent))) =
    [CallWrite [0x1B; 0x28; 0x4C]; CallWrite [5; 0; 0x30; 0x70];
     CallWrite [1; 2; 3]] /\
  gHeader 5 0x30 0x70 = [5; 0; 0x30; 0x70].
Proof.
  destruct (gSend_frame excerpt (New silent) 0x30 0x70 [1; 2; 3])
    as (Hlog & _ & Hfit).
  split; [exact Hlog | apply Hfit; vm_compute; reflexivity].
Defined.

Lemma len_raster : len raster = 65534.
Proof. unfold len, raster. rewrite repeat_length. apply Z2Nat.id. lia. Qed.

(** C7 as stated fails when [L + 2] needs more than sixteen bits: for
    65534 bytes of data the header the claim gives is
    [65536 % 256, 65536 / 256, m, fn], with 256 in second place, and the
    header on the wire is [0, 0, m, fn]. *)
Lemma gSend_length_overflow :
  ~ exists T : Tables,
      wire (gSend 0x30 0x70 raster (New silent)) =
        [0x1B; 0x28; 0x4C]
          ++ [(len raster + 2) mod 256; (len raster + 2) / 256; 0x30; 0x70]
          ++ raster.
Proof.
  intros (T & H). revert H. rewrite gSend_wire, len_raster.
  generalize raster. intros l H.
  cbn in H. injection H as H. discriminate H.
Qed.

(** ** Status query *)

(** C8.  [ReadStatus n] makes two calls on the device, in this order: one
    write of the three bytes [10 04 n] and one read into a buffer of one
    byte.  If that read answers with an error, the result is that error;
    otherwise it is the byte the read delivered (the zero the buffer held,
    if the read delivered none).  The style fields are untouched. *)
Theorem ReadStatus_spec (n : Z) (e : Escpos) :
  log (dst (snd (ReadStatus n e))) =
    log (dst e) ++ [CallWrite [0x10; 0x04; n]; CallRead 1] /\
  fst (ReadStatus n e) =
    match onRead (dst e) (log (dst e) ++ [CallWrite [0x10; 0x04; n]]) 1%nat with
    | (_, Some err) => (0, Some err)
    | (bytes, None) => (hd 0 bytes, None)
    end /\
  style (snd (ReadStatus n e)) = style e.
Proof.
  unfold ReadStatus. rewrite WriteRaw_eq. unfold DLE, EOT, ReadRaw, rwRead.
  cbn [dst with_dst logged log onRead length].
  destruct (onRead (dst e) (log (dst e) ++ [CallWrite [0x10; 0x04; n]]) 1%nat)
    as [bytes [err|]].
  - cbn. rewrite <- app_assoc. repeat split.
  - destruct bytes as [|b bytes]; cbn; rewrite <- app_assoc; repeat split.
Qed.

(** A device that answers [0x12], and one that answers end of file. *)
Example ReadStatus_answers :
  fst (ReadStatus 1 (New faulty)) = (0x12, None) /\
  fst (ReadStatus 1 (New silent)) = (0, Some "EOF"%string).
Proof. split; reflexivity. Qed.

(** ** Errors on the write path *)

(** C9.  [WriteRaw] and [Write] return [(0, nil)] for every input and every
    device, whatever the device's [Write] and the transcoder return.  The
    other writing methods have no result at all. *)
Theorem Write_never_fails (T : Tables) (data : list Z) (e : Escpos) :
  fst (WriteRaw data e) = (0, None) /\ fst (Write data e) = (0, None).
Proof.
  split; [|rewrite Write_eq]; rewrite WriteRaw_eq; reflexivity.
Qed.

(** On a device whose every write fails, the failure is dropped. *)
Example Write_on_faulty :
  onWrite faulty [] (str "A") = (0, Some "write: broken pipe"%string) /\
  fst (Write (T := excerpt) (str "A") (New faulty)) = (0, None) /\
  log (dst (snd (Write (T := excerpt) (str "A") (New faulty)))) =
    [CallWrite (str "A")].
Proof. repeat split. Qed.

(** ** Frame of the toggle setters *)

(** C10.  Each toggle setter changes its own field and no other style
    field: after [SetUnderline v] the eight fields are those of before with
    [underline] replaced by [v], and likewise for the five others. *)
Theorem toggle_setters_frame (T : Tables) (e : Escpos) (v : Z) :
  style (SetUnderline v e) =
    (width e, height e, v, emphasize e, upsidedown e, rotate e, reverse e,
     smooth e) /\
  style (SetEmphasize v e) =
    (width e, height e, underline e, v, upsidedown e, rotate e, reverse e,
     smooth e) /\
  style (SetUpsidedown v e) =
    (width e, height e, underline e, emphasize e, v, rotate e, reverse e,
     smooth e) /\
  style (SetRotate v e) =
    (width e, height e, underline e, emphasize e, upsidedown e, v, reverse e,
     smooth e) /\
  style (SetReverse v e) =
    (width e, height e, underline e, emphasize e, upsidedown e, rotate e, v,
     smooth e) /\
  style (SetSmooth v e) =
    (width e, height e, underline e, emphasize e, upsidedown e, rotate e,
     reverse e, v).
Proof.
  unfold SetUnderline, SendUnderline, SetEmphasize, SendEmphasize,
    SetUpsidedown, SendUpsidedown, SetRotate, SendRotate,
    SetReverse, SendReverse, SetSmooth, SendSmooth.
  rewrite !Write_style. repeat split.
Qed.

(** * Further properties of the encoder *)

(** ** Text through [Write] *)

Lemma bytes_eqb_eq (a b : list Z) : bytes_eqb a b = true <-> a = b.
Proof.
  revert b. induction a as [|x a IH]; destruct b as [|y b]; cbn [bytes_eqb];
    try (split; [discriminate | discriminate]); try (split; reflexivity).
  rewrite andb_true_iff, Z.eqb_eq, IH. split.
  - intros [-> ->]; reflexivity.
  - intros H; injection H; auto.
Qed.

Section TextMore.
Context {T : Tables}.

Lemma Transform_app_ascii (s t : list Z) :
  ascii s ->
  gb18030.Transform (s ++ t) 0 =
  (s ++ fst (gb18030.Transform t 0), snd (gb18030.Transform t 0)).
Proof.
  induction 1 as [|c s Hc _ IH].
  - cbn [app]. destruct (gb18030.Transform t 0); reflexivity.
  - cbn [app gb18030.Transform]. unfold_consts. decide_cmp.
    rewrite encodeRune_ascii by assumption. cbn [Nat.sub]. rewrite IH.
    reflexivity.
Qed.

Lemma ReadAll_app_ascii (s t : list Z) :
  ascii s ->
  fst (gb18030.ReadAll (s ++ t)) = s ++ fst (gb18030.ReadAll t).
Proof.
  intros Hs. unfold gb18030.ReadAll. rewrite Transform_app_ascii by assumption.
  reflexivity.
Qed.

End TextMore.

(** X2.  [Write] on ASCII text: the result is [(0, nil)], the device gets the
    text unchanged in a single write (no call at all for the empty string),
    and no style field moves. *)
Theorem Write_ascii_verbatim (T : Tables) (s : list Z) (e : Escpos) :
  ascii s ->
  fst (Write s e) = (0, None) /\
  log (dst (snd (Write s e))) = log (dst e) ++ writes s /\
  wire (snd (Write s e)) = wire e ++ s /\
  style (snd (Write s e)) = style e.
Proof.
  intros Hs. split; [|split; [|split]].
  - rewrite Write_eq, WriteRaw_eq. reflexivity.
  - apply Write_ascii_log, Hs.
  - rewrite wire_Write, ReadAll_ascii by assumption. reflexivity.
  - apply Write_style.
Qed.

Lemma Write_ascii_verbatim_witness :
  log (dst (snd (Write (T := excerpt) (str "Total: 12.50") (New silent)))) =
    [CallWrite (str "Total: 12.50")] /\
  log (dst (snd (Write (T := excerpt) [] (New silent)))) = [].
Proof.
  split.
  - refine (proj1 (proj2 (Write_ascii_verbatim excerpt (str "Total: 12.50") (New silent) _))).
    vm_compute. repeat constructor; discriminate.
  - refine (proj1 (proj2 (Write_ascii_verbatim excerpt [] (New silent) _))).
    constructor.
Defined.

(** X3.  Two [Write] calls, the first on ASCII text, put on the wire what one
    [Write] of the concatenation does, whatever the second text is. *)
Theorem Write_append (T : Tables) (s t : list Z) (e : Escpos) :
  ascii s ->
  wire (snd (Write t (snd (Write s e)))) = wire (snd (Write (s ++ t) e)).
Proof.
  intros Hs.
  rewrite !wire_Write, ReadAll_ascii, ReadAll_app_ascii by assumption.
  cbn [fst]. rewrite app_assoc. reflexivity.
Qed.

Lemma Write_append_witness :
  wire (snd (Write (T := excerpt) [0xE4; 0xB8; 0xAD]
               (snd (Write (T := excerpt) (str "ab") (New silent))))) =
  wire (snd (Write (T := excerpt) (str "ab" ++ [0xE4; 0xB8; 0xAD]) (New silent))).
Proof.
  apply (Write_append excerpt (str "ab") [0xE4; 0xB8; 0xAD] (New silent)).
  vm_compute. repeat constructor; discriminate.
Defined.

(** The hypothesis is needed: a character cut in two by the calls reaches
    the device as three replacement characters. *)
Example Write_append_split_rune :
  wire (snd (Write (T := excerpt) [0xB8; 0xAD]
               (snd (Write (T := excerpt) [0xE4] (New silent))))) =
    [0x84; 0x31; 0xA4; 0x37; 0x84; 0x31; 0xA4; 0x37; 0x84; 0x31; 0xA4; 0x37] /\
  wire (snd (Write (T := excerpt) [0xE4; 0xB8; 0xAD] (New silent))) =
    [0xD6; 0xD0].
Proof. split; reflexivity. Qed.

(** ** Commands without a parameter *)

(** X4.  The commands that take no argument, on every encoder: each makes one
    write with the bytes of its literal, which the transcoder leaves alone,
    and none but [Init] moves a style field. *)
Theorem fixed_commands (T : Tables) (e : Escpos) :
  (log (dst (Init e)) = log (dst e) ++ [CallWrite [0x1B; 0x40]]) /\
  (log (dst (Cut e)) = log (dst e) ++ [CallWrite [0x1D; 0x56; 0x41; 0x30]] /\
   style (Cut e) = style e) /\
  (log (dst (CutPartial e)) = log (dst e) ++ [CallWrite [0x1D; 0x56; 0x01]] /\
   style (CutPartial e) = style e) /\
  (log (dst (OpenDrawer e)) =
     log (dst e) ++ [CallWrite [0x1B; 0x70; 0x00; 0x0A; 0x0A]] /\
   style (OpenDrawer e) = style e) /\
  (log (dst (Pulse e)) = log (dst e) ++ [CallWrite [0x1B; 0x70; 0x02]] /\
   style (Pulse e) = style e) /\
  (log (dst (Linefeed e)) = log (dst e) ++ [CallWrite [0x0A]] /\
   style (Linefeed e) = style e) /\
  (log (dst (Formfeed e)) = log (dst e) ++ [CallWrite [0x1B; 0x64; 0x01]] /\
   style (Formfeed e) = style e) /\
  (log (dst (SetChineseOn e)) = log (dst e) ++ [CallWrite [0x1C; 0x26]] /\
   style (SetChineseOn e) = style e).
Proof.
  unfold Init, Cut, CutPartial, OpenDrawer, Pulse, Linefeed, Formfeed,
    FormfeedN, SetChineseOn.
  rewrite uint64_small, fmtC_ascii by lia.
  rewrite !Write_style, !WriteRaw_style, !WriteRaw_log.
  rewrite !Write_ascii_log by solve_ascii.
  repeat split.
Qed.

(** ** Commands selected by name *)

Lemma indexOr0_range (x : list Z) (names : list (list Z)) (i : Z) :
  0 <= i ->
  indexOr0 x names i = 0 \/
  i <= indexOr0 x names i < i + Z.of_nat (length names).
Proof.
  revert i. induction names as [|n names IH]; intros i Hi; cbn [indexOr0].
  - left; reflexivity.
  - destruct (bytes_eqb x n).
    + right. cbn [length]. lia.
    + destruct (IH (i + 1)) as [H|H]; [lia | left; exact H |].
      right. cbn [length]. lia.
Qed.

Lemma indexOr0_absent (x : list Z) (names : list (list Z)) (i : Z) :
  ~ In x names -> indexOr0 x names i = 0.
Proof.
  revert i. induction names as [|n names IH]; intros i Hx; cbn [indexOr0].
  - reflexivity.
  - destruct (bytes_eqb x n) eqn:E.
    + apply bytes_eqb_eq in E. exfalso. apply Hx. left. symmetry. exact E.
    + apply IH. intros H. apply Hx. right. exact H.
Qed.

Section Selectors.
Context {T : Tables}.

(** A two-byte command followed by [%c] of a small index. *)
Lemma Write_index (a b i : Z) (e : Escpos) :
  0 <= a < 128 -> 0 <= b < 128 -> 0 <= i < 128 ->
  log (dst (snd (Write ([a; b] ++ fmt.fmtC (uint64 i)) e))) =
  log (dst e) ++ [CallWrite [a; b; i]].
Proof.
  intros Ha Hb Hi.
  rewrite uint64_small, fmtC_ascii, Write_ascii_log by solve_ascii.
  reflexivity.
Qed.

Lemma SetFont_log (font : list Z) (e : Escpos) :
  log (dst (SetFont font e)) =
  log (dst e) ++ [CallWrite [0x1B; 0x4D; indexOr0 font fontNames 0]].
Proof.
  pose proof (indexOr0_range font fontNames 0) as Hr. cbn [length fontNames] in Hr.
  apply Write_index; lia.
Qed.

Lemma SetAlign_log (align : list Z) (e : Escpos) :
  log (dst (SetAlign align e)) =
  log (dst e) ++ [CallWrite [0x1B; 0x61; indexOr0 align alignNames 0]].
Proof.
  pose proof (indexOr0_range align alignNames 0) as Hr.
  cbn [length alignNames] in Hr.
  apply Write_index; lia.
Qed.

Lemma SetLang_log (lang : list Z) (e : Escpos) :
  log (dst (SetLang lang e)) =
  log (dst e) ++ [CallWrite [0x1B; 0x52; indexOr0 lang langNames 0]].
Proof.
  pose proof (indexOr0_range lang langNames 0) as Hr.
  cbn [length langNames] in Hr.
  apply Write_index; lia.
Qed.

End Selectors.

(** X5.  [SetFont], [SetAlign] and [SetLang] on any string: one write of the
    command with the index of the name among those the method lists, no
    style field moved; a name that is not listed gives index 0, the same
    as the first name. *)
Theorem named_selectors (T : Tables) (name : list Z) (e : Escpos) :
  (log (dst (SetFont name e)) =
     log (dst e) ++ [CallWrite [0x1B; 0x4D; indexOr0 name fontNames 0]] /\
   style (SetFont name e) = style e) /\
  (log (dst (SetAlign name e)) =
     log (dst e) ++ [CallWrite [0x1B; 0x61; indexOr0 name alignNames 0]] /\
   style (SetAlign name e) = style e) /\
  (log (dst (SetLang name e)) =
     log (dst e) ++ [CallWrite [0x1B; 0x52; indexOr0 name langNames 0]] /\
   style (SetLang name e) = style e) /\
  (forall names : list (list Z), ~ In name names -> indexOr0 name names 0 = 0).
Proof.
  repeat split.
  - apply SetFont_log.
  - unfold SetFont. apply Write_style.
  - apply SetAlign_log.
  - apply SetAlign_style.
  - apply SetLang_log.
  - unfold SetLang. apply Write_style.
  - intros names. apply indexOr0_absent.
Qed.

(** The indices of the listed names, and of one that is not. *)
Example indexOr0_values :
  map (fun n => indexOr0 n fontNames 0) fontNames = [0; 1; 2] /\
  map (fun n => indexOr0 n alignNames 0) alignNames = [0; 1; 2] /\
  map (fun n => indexOr0 n langNames 0) langNames =
    [0; 1; 2; 3; 4; 5; 6; 7; 8; 9] /\
  indexOr0 (str "justify") alignNames 0 = 0 /\
  indexOr0 (str "Center") alignNames 0 = 0.
Proof. repeat split. Qed.

(** X6.  [SetLang] and [SetRotate] share the command bytes [ESC R]: selecting a
    language makes the very call that [SetRotate] makes for the index of
    that language. *)
Theorem SetLang_is_SetRotate (T : Tables) (lang : list Z) (e : Escpos) :
  log (dst (SetLang lang e)) =
  log (dst (SetRotate (indexOr0 lang langNames 0) e)).
Proof.
  rewrite SetLang_log.
  pose proof (indexOr0_range lang langNames 0) as Hr.
  cbn [length langNames] in Hr.
  unfold SetRotate, SendRotate. cbn [rotate].
  rewrite fmtC_ascii, Write_ascii_log by solve_ascii. reflexivity.
Qed.

Lemma named_selectors_witness :
  indexOr0 (str "justify") alignNames 0 = 0 /\
  log (dst (SetAlign (T := excerpt) (str "justify") (New silent))) =
    [CallWrite [0x1B; 0x61; 0x00]].
Proof.
  destruct (named_selectors excerpt (str "justify") (New silent))
    as (_ & (Hlog & _) & _ & Habsent).
  assert (H0 : indexOr0 (str "justify") alignNames 0 = 0).
  { apply Habsent. vm_compute. intros [H|[H|[H|[]]]]; discriminate H. }
  split; [exact H0|]. rewrite Hlog, H0. reflexivity.
Defined.

(** ** Commands with a numeric parameter sent as raw bytes in a string *)

(** X7.  [SetMarginLeft] on a [uint16]: up to 47 the margin goes out as
    [GS L size 00] in one write; above 47 nothing is sent and the encoder
    is unchanged. *)
Theorem SetMarginLeft_spec (T : Tables) (size : Z) (e : Escpos) :
  (0 <= size <= 47 ->
   log (dst (SetMarginLeft size e)) =
     log (dst e) ++ [CallWrite [0x1D; 0x4C; size; 0x00]] /\
   style (SetMarginLeft size e) = style e) /\
  (47 < size -> SetMarginLeft size e = e).
Proof.
  unfold SetMarginLeft. split.
  - intros Hs. decide_cmp. rewrite Write_style. split; [|reflexivity].
    rewrite Z.rem_small, Z.quot_small, !uint8_small by lia.
    rewrite Write_ascii_log by solve_ascii. reflexivity.
  - intros Hs. decide_cmp. reflexivity.
Qed.

Lemma SetMarginLeft_spec_witness :
  log (dst (SetMarginLeft (T := excerpt) 47 (New silent))) =
    [CallWrite [0x1D; 0x4C; 47; 0x00]] /\
  SetMarginLeft (T := excerpt) 48 (New silent) = New silent.
Proof.
  destruct (SetMarginLeft_spec excerpt 47 (New silent)) as [Hin _].
  destruct (SetMarginLeft_spec excerpt 48 (New silent)) as [_ Hout].
  split; [exact (proj1 (Hin ltac:(lia))) | apply Hout; lia].
Defined.

(** X8.  [SetLetterSpace] on an [int]: only the low eight bits of [n] count, and
    when they are below 128 the device gets [ESC SP] followed by that
    byte. *)
Theorem SetLetterSpace_spec (T : Tables) (n : Z) (e : Escpos) :
  SetLetterSpace n e = SetLetterSpace (n mod 256) e /\
  (n mod 256 < 128 ->
   log (dst (SetLetterSpace n e)) =
     log (dst e) ++ [CallWrite [0x1B; 0x20; n mod 256]]).
Proof.
  unfold SetLetterSpace, uint8. rewrite Z.mod_mod by lia. split; [reflexivity|].
  intros Hn. pose proof (Z.mod_pos_bound n 256 ltac:(lia)).
  rewrite Write_ascii_log by solve_ascii. reflexivity.
Qed.

Lemma SetLetterSpace_spec_witness :
  log (dst (SetLetterSpace (T := excerpt) 261 (New silent))) =
    [CallWrite [0x1B; 0x20; 5]].
Proof.
  apply (proj2 (SetLetterSpace_spec excerpt 261 (New silent))).
  vm_compute. reflexivity.
Defined.

Section FeedCut.
Context {T : Tables}.

Lemma Formfeed_Cut_log (e : Escpos) :
  log (dst (Formfeed e)) = log (dst e) ++ [CallWrite [0x1B; 0x64; 0x01]] /\
  style (Formfeed e) = style e /\
  (forall e0 : Escpos,
     log (dst (Cut e0)) = log (dst e0) ++ [CallWrite [0x1D; 0x56; 0x41; 0x30]]).
Proof.
  unfold Formfeed, FormfeedN, Cut.
  rewrite uint64_small, fmtC_ascii by lia. rewrite Write_style.
  rewrite Write_ascii_log by solve_ascii.
  split; [reflexivity | split; [reflexivity|]].
  intros e0. rewrite Write_ascii_log by solve_ascii. reflexivity.
Qed.

End FeedCut.

(** ** Feed and cut *)

(** X9.  [FeedAndCut] looks at the entry ["type"] of its map and at nothing
    else: when it is ["feed"] the device gets the form feed [ESC d 01] and
    then the cut; when the entry is missing or anything else, the cut
    alone.  No style field moves. *)
Theorem FeedAndCut_spec (T : Tables) (params : list Z -> option (list Z))
    (e : Escpos) :
  (params (str "type") = Some (str "feed") ->
   log (dst (FeedAndCut params e)) =
     log (dst e) ++ [CallWrite [0x1B; 0x64; 0x01];
                     CallWrite [0x1D; 0x56; 0x41; 0x30]]) /\
  (params (str "type") <> Some (str "feed") ->
   log (dst (FeedAndCut params e)) =
     log (dst e) ++ [CallWrite [0x1D; 0x56; 0x41; 0x30]]) /\
  style (FeedAndCut params e) = style e.
Proof.
  destruct (Formfeed_Cut_log e) as (HF & HFs & HC).
  unfold FeedAndCut. split; [|split].
  - intros ->. change (bytes_eqb (str "feed") (str "feed")) with true.
    cbv iota. rewrite HC, HF, <- app_assoc. reflexivity.
  - intros Hp. destruct (params (str "type")) as [t|]; [|apply HC].
    destruct (bytes_eqb t (str "feed")) eqn:E; [|apply HC].
    apply bytes_eqb_eq in E. subst t. contradiction.
  - destruct (params (str "type")) as [t|];
      [destruct (bytes_eqb t (str "feed"))|];
      unfold Cut; rewrite Write_style, ?HFs; reflexivity.
Qed.

Lemma FeedAndCut_spec_witness :
  log (dst (FeedAndCut (T := excerpt)
              (fun k => if bytes_eqb k (str "type") then Some (str "feed") else None)
              (New silent))) =
    [CallWrite [0x1B; 0x64; 0x01]; CallWrite [0x1D; 0x56; 0x41; 0x30]] /\
  log (dst (FeedAndCut (T := excerpt) (fun _ => None) (New silent))) =
    [CallWrite [0x1D; 0x56; 0x41; 0x30]].
Proof.
  split.
  - apply (proj1 (FeedAndCut_spec excerpt
                    (fun k => if bytes_eqb k (str "type") then Some (str "feed") else None)
                    (New silent))).
    reflexivity.
  - apply (proj1 (proj2 (FeedAndCut_spec excerpt (fun _ => None) (New silent)))).
    discriminate.
Defined.

(** ** Bytes from [0x80] in a command string *)

Lemma range_forallb (P : Z -> bool) (a n : nat) :
  forallb P (map Z.of_nat (seq a n)) = true ->
  forall z : Z, Z.of_nat a <= z < Z.of_nat (a + n) -> P z = true.
Proof.
  intros H z Hz.
  apply (proj1 (forallb_forall _ _) H).
  apply in_map_iff. exists (Z.to_nat z). split; [lia|].
  apply in_seq. lia.
Qed.

Lemma lone_checked : forallb lone_check (map Z.of_nat (seq 128 128)) = true.
Proof. vm_compute. reflexivity. Qed.

(** A byte from [0x80] that ends the string, or that an ASCII byte
    follows, is read as U+FFFD. *)
Lemma DecodeRune_lone (lo : Z) :
  128 <= lo < 256 ->
  utf8.DecodeRune [lo] = (utf8.RuneError, 1%nat) /\
  forall hi : Z, 0 <= hi < 128 ->
    utf8.DecodeRune [lo; hi] = (utf8.RuneError, 1%nat).
Proof.
  intros Hlo.
  pose proof (range_forallb _ _ _ lone_checked lo ltac:(lia)) as Hk.
  unfold lone_check in Hk. apply andb_prop in Hk. destruct Hk as [H1 H2].
  split.
  - destruct (utf8.DecodeRune [lo]) as [r size].
    apply andb_prop in H1. destruct H1 as [Hr Hs].
    apply Z.eqb_eq in Hr. apply Nat.eqb_eq in Hs. subst. reflexivity.
  - intros hi Hhi.
    pose proof (range_forallb _ _ _ H2 hi ltac:(lia)) as Hk. cbv beta in Hk.
    destruct (utf8.DecodeRune [lo; hi]) as [r size].
    apply andb_prop in Hk. destruct Hk as [Hr Hs].
    apply Z.eqb_eq in Hr. apply Nat.eqb_eq in Hs. subst. reflexivity.
Qed.

Section HighBytes.
Context {T : Tables}.

(** The transcoder on a two-byte command followed by one byte from
    [0x80]. *)
Lemma ReadAll_command_lone (a b lo : Z) (code : list Z) :
  0 <= a < 128 -> 0 <= b < 128 -> 128 <= lo < 256 ->
  gb18030.encodeRune utf8.RuneError = Some code ->
  gb18030.ReadAll [a; b; lo] = ([a; b] ++ code, None).
Proof.
  intros Ha Hb Hlo Hcode. unfold gb18030.ReadAll.
  cbn -[gb18030.encodeRune utf8.DecodeRune Z.ltb].
  rewrite (proj1 (DecodeRune_lone lo Hlo)).
  unfold utf8.RuneSelf. decide_cmp.
  rewrite !encodeRune_ascii, Hcode by assumption.
  cbn. rewrite app_nil_r. reflexivity.
Qed.

(** The same with an ASCII byte after it. *)
Lemma ReadAll_command_lone_ascii (a b lo hi : Z) (code : list Z) :
  0 <= a < 128 -> 0 <= b < 128 -> 128 <= lo < 256 -> 0 <= hi < 128 ->
  gb18030.encodeRune utf8.RuneError = Some code ->
  gb18030.ReadAll [a; b; lo; hi] = ([a; b] ++ code ++ [hi], None).
Proof.
  intros Ha Hb Hlo Hhi Hcode. unfold gb18030.ReadAll.
  cbn -[gb18030.encodeRune utf8.DecodeRune Z.ltb].
  rewrite (proj2 (DecodeRune_lone lo Hlo) hi Hhi).
  unfold utf8.RuneSelf. decide_cmp.
  rewrite !encodeRune_ascii, Hcode by assumption.
  cbn -[gb18030.encodeRune]. rewrite encodeRune_ascii by assumption.
  cbn. reflexivity.
Qed.

Lemma SetFontStyle_high (s : Z) (e : Escpos) :
  128 <= s < 256 ->
  exists code : list Z,
    (length code = 2%nat \/ length code = 4%nat) /\
    gb18030.encodeRune utf8.RuneError = Some code /\
    log (dst (SetFontStyle s e)) =
      log (dst e) ++ [CallWrite ([0x1B; 0x21] ++ code)].
Proof.
  intros Hs.
  destruct (encodeRune_wide utf8.RuneError) as (code & Hcode & Hlen);
    [unfold_consts; lia | unfold_consts; lia |].
  exists code. split; [exact Hlen|]. split; [exact Hcode|].
  unfold SetFontStyle. rewrite uint8_small, Write_log by lia.
  rewrite (ReadAll_command_lone 0x1B 0x21 s code) by (assumption || lia).
  reflexivity.
Qed.

Lemma SendMove_high (a x : Z) (e : Escpos) :
  0 <= a < 128 -> 0 <= x < 32768 -> 128 <= x mod 256 ->
  wire (snd (Write [a; 0x24; uint8 (Z.rem x 256); uint8 (Z.quot x 256)] e)) <>
  wire e ++ [a; 0x24; x mod 256; x / 256].
Proof.
  intros Ha Hx Hlo.
  destruct (encodeRune_wide utf8.RuneError) as (code & Hcode & Hlen);
    [unfold_consts; lia | unfold_consts; lia |].
  pose proof (Z.mod_pos_bound x 256 ltac:(lia)) as Hm.
  assert (Hq : 0 <= x / 256 < 128)
    by (split; [apply Z.div_pos; lia | apply Z.div_lt_upper_bound; lia]).
  rewrite Z.rem_mod_nonneg, Z.quot_div_nonneg, !uint8_small by lia.
  rewrite wire_Write.
  rewrite (ReadAll_command_lone_ascii a 0x24 (x mod 256) (x / 256) code)
    by (assumption || lia).
  cbn [fst app]. intros H. apply app_inv_head in H.
  injection H as H. apply (f_equal (@length Z)) in H.
  rewrite length_app in H. cbn [length] in H. destruct Hlen; lia.
Qed.

Lemma SendMove_low (a x : Z) (e : Escpos) :
  0 <= a < 128 -> 0 <= x < 32768 -> x mod 256 < 128 ->
  log (dst (snd (Write [a; 0x24; uint8 (Z.rem x 256); uint8 (Z.quot x 256)] e))) =
  log (dst e) ++ [CallWrite [a; 0x24; x mod 256; x / 256]].
Proof.
  intros Ha Hx Hlo.
  pose proof (Z.mod_pos_bound x 256 ltac:(lia)) as Hm.
  assert (Hq : 0 <= x / 256 < 128)
    by (split; [apply Z.div_pos; lia | apply Z.div_lt_upper_bound; lia]).
  rewrite Z.rem_mod_nonneg, Z.quot_div_nonneg, !uint8_small by lia.
  rewrite Write_ascii_log by solve_ascii. reflexivity.
Qed.

End HighBytes.

(** X10.  [SetFontStyle] on a [uint8]: a style below 128 goes out as
    [ESC ! style].  A style from 128 up (the underline bit of the print
    mode) does not: its byte is not UTF-8 on its own, the transcoder
    replaces it, and every such style makes the same call on the device. *)
Theorem SetFontStyle_spec (T : Tables) (s : Z) (e : Escpos) :
  (0 <= s < 128 ->
   log (dst (SetFontStyle s e)) = log (dst e) ++ [CallWrite [0x1B; 0x21; s]]) /\
  (128 <= s < 256 ->
   log (dst (SetFontStyle s e)) = log (dst (SetFontStyle 128 e)) /\
   wire (SetFontStyle s e) <> wire e ++ [0x1B; 0x21; s]) /\
  style (SetFontStyle s e) = style e.
Proof.
  split; [|split].
  - intros Hs. unfold SetFontStyle.
    rewrite uint8_small, Write_ascii_log by solve_ascii. reflexivity.
  - intros Hs.
    destruct (SetFontStyle_high s e Hs) as (code & Hlen & Hcode & Hlog).
    destruct (SetFontStyle_high 128 e ltac:(lia)) as (code' & _ & Hcode' & Hlog').
    assert (code' = code) by congruence. subst code'.
    split; [congruence|].
    rewrite (wire_one_write _ _ _ Hlog). intros H. apply app_inv_head in H.
    injection H as H. revert H. apply not_single, Hlen.
  - unfold SetFontStyle. apply Write_style.
Qed.

Lemma SetFontStyle_spec_witness :
  log (dst (SetFontStyle (T := excerpt) 0x38 (New silent))) =
    [CallWrite [0x1B; 0x21; 0x38]] /\
  log (dst (SetFontStyle (T := excerpt) 0x88 (New silent))) =
    log (dst (SetFontStyle (T := excerpt) 128 (New silent))).
Proof.
  destruct (SetFontStyle_spec excerpt 0x38 (New silent)) as [Hlow _].
  destruct (SetFontStyle_spec excerpt 0x88 (New silent)) as (_ & Hhigh & _).
  split; [apply Hlow; lia | apply Hhigh; lia].
Defined.

(** With the library's entries, style [0x88] goes out as
    [ESC ! 84 31 A4 37]. *)
Example SetFontStyle_excerpt :
  log (dst (SetFontStyle (T := excerpt) 0x88 (New silent))) =
    [CallWrite [0x1B; 0x21; 0x84; 0x31; 0xA4; 0x37]].
Proof. reflexivity. Qed.

(** X11.  [SendMoveX] and [SendMoveY] on a position [x] in [0, 32767]: when the
    low byte [x % 256] is below 128 the device gets the command followed by
    the two bytes of [x], low byte first; when it is 128 or more, the wire
    does not carry those bytes. *)
Theorem SendMove_spec (T : Tables) (x : Z) (e : Escpos) :
  0 <= x < 32768 ->
  (x mod 256 < 128 ->
   log (dst (SendMoveX x e)) =
     log (dst e) ++ [CallWrite [0x1B; 0x24; x mod 256; x / 256]] /\
   log (dst (SendMoveY x e)) =
     log (dst e) ++ [CallWrite [0x1D; 0x24; x mod 256; x / 256]]) /\
  (128 <= x mod 256 ->
   wire (SendMoveX x e) <> wire e ++ [0x1B; 0x24; x mod 256; x / 256] /\
   wire (SendMoveY x e) <> wire e ++ [0x1D; 0x24; x mod 256; x / 256]) /\
  x mod 256 + 256 * (x / 256) = x.
Proof.
  intros Hx. unfold SendMoveX, SendMoveY. split; [|split].
  - intros Hlo. split; apply SendMove_low; lia.
  - intros Hlo. split; apply SendMove_high; lia.
  - pose proof (Z.div_mod x 256 ltac:(lia)). lia.
Qed.

Lemma SendMove_spec_witness :
  log (dst (SendMoveX (T := excerpt) 300 (New silent))) =
    [CallWrite [0x1B; 0x24; 44; 1]] /\
  wire (SendMoveX (T := excerpt) 200 (New silent)) <>
    wire (New silent) ++ [0x1B; 0x24; 200; 0].
Proof.
  destruct (SendMove_spec excerpt 300 (New silent) ltac:(lia)) as (Hlow & _).
  destruct (SendMove_spec excerpt 200 (New silent) ltac:(lia)) as (_ & Hhigh & _).
  split.
  - apply Hlow. vm_compute. reflexivity.
  - apply Hhigh. vm_compute. discriminate.
Defined.

(** With the library's entries, position 200 goes out as
    [ESC $ 84 31 A4 37 00]. *)
Example SendMoveX_excerpt :
  log (dst (SendMoveX (T := excerpt) 200 (New silent))) =
    [CallWrite [0x1B; 0x24; 0x84; 0x31; 0xA4; 0x37; 0x00]].
Proof. reflexivity. Qed.

(** ** Sending the stored state again *)

(** X12.  The [Send] methods write the command for the value the encoder holds
    and leave every style field as it is: the size byte for scale factors
    in [0, 7], each toggle for a value in [0, 127]. *)
Theorem Send_resends (T : Tables) (e : Escpos) :
  (size_ok e ->
   log (dst (SendFontSize e)) =
     log (dst e)
       ++ [CallWrite [0x1D; 0x21; Z.lor (Z.shiftl (width e) 4) (height e)]]) /\
  (0 <= underline e < 128 ->
   sends_param [0x1B; 0x2D] (underline e) e (SendUnderline e)) /\
  (0 <= emphasize e < 128 ->
   sends_param [0x1B; 0x47] (emphasize e) e (SendEmphasize e)) /\
  (0 <= upsidedown e < 128 ->
   sends_param [0x1B; 0x7B] (upsidedown e) e (SendUpsidedown e)) /\
  (0 <= rotate e < 128 ->
   sends_param [0x1B; 0x52] (rotate e) e (SendRotate e)) /\
  (0 <= reverse e < 128 ->
   sends_param [0x1D; 0x42] (reverse e) e (SendReverse e)) /\
  (0 <= smooth e < 128 ->
   sends_param [0x1D; 0x62] (smooth e) e (SendSmooth e)) /\
  style (SendFontSize e) = style e /\
  style (SendUnderline e) = style e /\
  style (SendEmphasize e) = style e /\
  style (SendUpsidedown e) = style e /\
  style (SendRotate e) = style e /\
  style (SendReverse e) = style e /\
  style (SendSmooth e) = style e.
Proof.
  unfold SendFontSize, SendUnderline, SendEmphasize, SendUpsidedown,
    SendRotate, SendReverse, SendSmooth.
  rewrite !Write_style.
  split.
  { intros [Hw Hh]. destruct (packed_small _ _ Hw Hh) as [Hp Hb].
    rewrite Hp, fmtC_ascii, Write_ascii_log by solve_ascii. reflexivity. }
  repeat match goal with
  | |- (_ -> _) /\ _ => split; [intros Hv; apply Write_low_param; lia|]
  end.
  repeat split.
Qed.

(** After [Init] the size byte sent again is [0x11] and the underline sent
    again is [0]. *)
Lemma Send_resends_witness :
  log (dst (SendFontSize (T := excerpt) (New silent))) =
    [CallWrite [0x1D; 0x21; 0x11]] /\
  sends_param [0x1B; 0x2D] 0 (New silent)
    (SendUnderline (T := excerpt) (New silent)).
Proof.
  destruct (Send_resends excerpt (New silent)) as (Hsize & Hunder & _).
  split.
  - apply Hsize. unfold size_ok. cbn. lia.
  - apply Hunder. cbn. lia.
Defined.

(** ** What every client program keeps *)

Lemma steps_fields (e e' : Escpos) : dst e' = dst e -> steps 0 e e'.
Proof.
  intros H. unfold steps. rewrite H. repeat split.
  exists []. rewrite app_nil_r. split; reflexivity.
Qed.

Lemma readCalls_app (l1 l2 : list call) :
  readCalls (l1 ++ l2) = (readCalls l1 + readCalls l2)%nat.
Proof.
  induction l1 as [|c l1 IH]; [reflexivity|].
  destruct c; cbn [app readCalls]; rewrite IH; reflexivity.
Qed.

Lemma steps_trans (a b : nat) (e e' e'' : Escpos) :
  steps a e e' -> steps b e' e'' -> steps (a + b) e e''.
Proof.
  intros (W1 & R1 & l1 & L1 & C1) (W2 & R2 & l2 & L2 & C2).
  unfold steps. rewrite W2, R2, L2, L1. repeat split; try assumption.
  exists (l1 ++ l2). rewrite app_assoc, readCalls_app, C1, C2.
  split; reflexivity.
Qed.

Lemma steps_WriteRaw (k : nat) (data : list Z) (e e' : Escpos) :
  steps k e e' -> steps k e (snd (WriteRaw data e')).
Proof.
  intros H. rewrite <- (Nat.add_0_r k). apply (steps_trans _ _ _ _ _ H).
  rewrite WriteRaw_eq. cbn [snd]. destruct data; [apply steps_fields; reflexivity|].
  unfold steps. cbn. repeat split.
  eexists. split; reflexivity.
Qed.

Lemma steps_ReadRaw (data : list Z) (e : Escpos) :
  steps 1 e (snd (ReadRaw data e)).
Proof.
  unfold ReadRaw, rwRead.
  destruct (onRead (dst e) (log (dst e)) (length data)) as [bytes err].
  unfold steps. cbn. repeat split. eexists. split; reflexivity.
Qed.

Lemma ReadRaw_style (data : list Z) (e : Escpos) :
  style (snd (ReadRaw data e)) = style e.
Proof.
  unfold ReadRaw, rwRead.
  destruct (onRead (dst e) (log (dst e)) (length data)) as [bytes err].
  reflexivity.
Qed.

Lemma ReadStatus_eq (n : Z) (e : Escpos) :
  snd (ReadStatus n e) =
  snd (ReadRaw [0] (snd (WriteRaw [DLE; EOT; n] e))).
Proof.
  unfold ReadStatus. rewrite WriteRaw_eq. cbn [snd].
  destruct (ReadRaw [0] _) as [[[k [err|]] data] e']; reflexivity.
Qed.

Section Clients.
Context {T : Tables}.

Lemma steps_Write (k : nat) (s : list Z) (e e' : Escpos) :
  steps k e e' -> steps k e (snd (Write s e')).
Proof. rewrite Write_eq. apply steps_WriteRaw. Qed.

(** Solves [steps 0 e X] for [X] built from [e] by writes, field updates
    and branches. *)
Ltac steps_writes :=
  repeat first
    [ apply steps_Write
    | apply steps_WriteRaw
    | apply steps_fields; reflexivity
    | match goal with
      | |- steps _ _ (if ?b then _ else _) => destruct b
      | |- steps _ _ (match ?x with Some _ => _ | None => _ end) => destruct x
      end ].

Lemma exec_steps (o : op) (e : Escpos) :
  steps (if reads o then 1 else 0) e (exec o e).
Proof.
  destruct o; cbn [reads exec];
    try apply steps_ReadRaw;
    try (rewrite ReadStatus_eq;
         apply (steps_trans 0 1 e (snd (WriteRaw [DLE; EOT; n] e)));
         [steps_writes | apply steps_ReadRaw]);
    unfold SetChineseOn, OpenDrawer, Init, End, Cut, CutPartial, Cash,
      Linefeed, Formfeed, FormfeedN, SetFont, SendFontSize, SetFontStyle,
      SetLetterSpace, SetFontSize, SetFontColor, SetUnderline, SetEmphasize,
      SetUpsidedown, SetRotate, SetReverse, SetSmooth, SendUnderline,
      SendEmphasize, SendUpsidedown, SendRotate, SendReverse, SendSmooth,
      SendMoveX, SendMoveY, Pulse, SetAlign, SetMarginLeft, SetLang,
      FeedAndCut, Barcode, Cut, Formfeed, FormfeedN, SetAlign;
    cbv zeta; steps_writes.
Qed.

Lemma run_steps (ops : list op) (e : Escpos) :
  steps (readOps ops) e (run ops e).
Proof.
  unfold run, readOps. revert e.
  induction ops as [|o ops IH]; intros e; cbn [fold_left filter].
  - apply steps_fields. reflexivity.
  - pose proof (steps_trans _ _ _ _ _ (exec_steps o e) (IH (exec o e))) as H.
    destruct (reads o); exact H.
Qed.

Lemma exec_size_ok (o : op) (e : Escpos) : size_ok e -> size_ok (exec o e).
Proof.
  intros He.
  assert (Hkeep : forall e' : Escpos, style e' = style e -> size_ok e').
  { intros e' Hs. destruct (style_fields _ _ Hs) as (Hw & Hh & _).
    unfold size_ok. rewrite Hw, Hh. exact He. }
  assert (Hone : forall e' : Escpos, style e' = style (reset e) -> size_ok e').
  { intros e' Hs. destruct (style_fields _ _ Hs) as (Hw & Hh & _).
    unfold size_ok. rewrite Hw, Hh. cbn. lia. }
  assert (Hset : forall (s : list Z) (e0 : Escpos),
            width e0 = width e -> height e0 = height e ->
            size_ok (snd (Write s e0))).
  { intros s e0 Hw0 Hh0.
    destruct (style_fields _ _ (Write_style s e0)) as (Hw & Hh & _).
    unfold size_ok. rewrite Hw, Hh, Hw0, Hh0. exact He. }
  destruct o; cbn [exec];
    try solve [ apply Hkeep;
                first [ apply WriteRaw_style | apply Write_style
                      | apply ReadRaw_style | apply SetAlign_style ] ];
    try solve [ apply Hone; first [ apply Barcode_style | apply Write_style ] ];
    try solve [ apply Hset; reflexivity ].
  - (* SetFontSize *)
    unfold SetFontSize.
    destruct ((0 <=? w) && (0 <=? h) && (w <? 8) && (h <? 8)) eqn:E; [|exact He].
    unfold SendFontSize.
    match goal with |- size_ok (snd (Write ?s ?e0)) =>
      destruct (style_fields _ _ (Write_style s e0)) as (Hw & Hh & _)
    end.
    unfold size_ok. rewrite Hw, Hh. cbn [width height].
    repeat (apply andb_prop in E; destruct E as [E ?]). lia.
  - (* SetMarginLeft *) unfold SetMarginLeft.
    destruct (size <=? 47); [apply Hkeep, Write_style | exact He].
  - (* FeedAndCut *) apply Hkeep. unfold FeedAndCut, Cut. rewrite Write_style.
    destruct (params (str "type")) as [t|]; [|reflexivity].
    destruct (bytes_eqb t (str "feed")); [|reflexivity].
    unfold Formfeed, FormfeedN. apply Write_style.
  - (* ReadStatus *) apply Hkeep. rewrite ReadStatus_eq, ReadRaw_style.
    apply WriteRaw_style.
Qed.

Lemma run_size_ok (ops : list op) (e : Escpos) :
  size_ok e -> size_ok (run ops e).
Proof.
  unfold run. revert e. induction ops as [|o ops IH]; intros e He.
  - exact He.
  - cbn [fold_left]. apply IH, exec_size_ok, He.
Qed.

End Clients.

(** X13.  On an encoder made by [New], whatever calls a client has made since,
    the scale factors are in [0, 7]; so [SendFontSize] always sends
    [GS !] followed by the size byte [(width << 4) | height] of the state,
    unchanged by the shift or the transcoder. *)
Theorem size_byte_always_valid (T : Tables) (d : ReadWriter) (ops : list op) :
  size_ok (run ops (New d)) /\
  log (dst (SendFontSize (run ops (New d)))) =
    log (dst (run ops (New d)))
      ++ [CallWrite [0x1D; 0x21;
                     Z.lor (Z.shiftl (width (run ops (New d))) 4)
                           (height (run ops (New d)))]].
Proof.
  assert (Hok : size_ok (run ops (New d))).
  { apply run_size_ok. unfold size_ok. cbn. lia. }
  split; [exact Hok|].
  destruct Hok as [Hw Hh]. destruct (packed_small _ _ Hw Hh) as [Hp Hb].
  unfold SendFontSize.
  rewrite Hp, fmtC_ascii, Write_ascii_log by solve_ascii. reflexivity.
Qed.

(** A rejected size leaves the one set before it in force. *)
Example size_byte_after_calls :
  log (dst (run (T := excerpt)
              [OpInit; OpSetFontSize 2 3; OpSetFontSize 9 1; OpSendFontSize]
              (New silent))) =
    [CallWrite [0x1B; 0x40]; CallWrite [0x1D; 0x21; 0x23];
     CallWrite [0x1D; 0x21; 0x23]].
Proof. reflexivity. Qed.

(** X14.  Whatever calls a client makes, the encoder keeps the device it was
    given, the log of calls on the device only grows, and the device is
    read exactly once per [ReadRaw] or [ReadStatus] call and by no other
    method. *)
Theorem device_use (T : Tables) (ops : list op) (e : Escpos) :
  onWrite (dst (run ops e)) = onWrite (dst e) /\
  onRead (dst (run ops e)) = onRead (dst e) /\
  exists l : list call,
    log (dst (run ops e)) = log (dst e) ++ l /\
    readCalls l = readOps ops.
Proof. exact (run_steps ops e). Qed.

Example device_use_values :
  log (dst (run (T := excerpt) [OpCut; OpReadStatus 1; OpLinefeed] (New faulty))) =
    [CallWrite [0x1D; 0x56; 0x41; 0x30]; CallWrite [0x10; 0x04; 0x01];
     CallRead 1; CallWrite [0x0A]] /\
  readOps [OpCut; OpReadStatus 1; OpLinefeed] = 1%nat.
Proof. split; reflexivity. Qed.

(** ** Text replacement *)

Lemma hasPrefix_head (k : Z) (old s : list Z) :
  ~ In k s -> hasPrefix (k :: old) s = false.
Proof.
  destruct s as [|c s]; [reflexivity|]. intros H. cbn [hasPrefix].
  replace (k =? c) with false; [reflexivity|].
  symmetry. apply Z.eqb_neq. intros ->. apply H. left. reflexivity.
Qed.

Lemma Replace_absent (k : Z) (old new s : list Z) :
  ~ In k s -> Replace (k :: old) new s 0 = s.
Proof.
  induction s as [|c s IH]; intros H; [reflexivity|].
  cbn [Replace]. rewrite hasPrefix_head by assumption.
  rewrite IH; [reflexivity|]. intros Hin. apply H. right. exact Hin.
Qed.

Lemma hasPrefix_length (p s : list Z) :
  hasPrefix p s = true -> (length p <= length s)%nat.
Proof.
  revert s. induction p as [|x p IH]; intros s H; [cbn; lia|].
  destruct s as [|y s]; [discriminate H|].
  cbn [hasPrefix] in H. apply andb_prop in H. destruct H as [_ H].
  apply IH in H. cbn [length]. lia.
Qed.

Lemma Replace_length (old new s : list Z) (skip : nat) :
  (length new <= length old)%nat ->
  (length (Replace old new s skip) <= length s - skip)%nat.
Proof.
  intros Hn. revert skip. induction s as [|c s IH]; intros skip; [cbn; lia|].
  cbn [Replace]. destruct skip as [|k].
  - destruct (hasPrefix old (c :: s)) eqn:E.
    + apply hasPrefix_length in E. cbn [length] in E |- *.
      rewrite length_app. specialize (IH (length old - 1)%nat). lia.
    + cbn [length]. specialize (IH 0%nat). lia.
  - specialize (IH k). cbn [length]. lia.
Qed.

(** What holds of every entry of the map. *)
Lemma textReplaceMap_entries :
  Forall (fun kv : list Z * list Z =>
            (exists t, fst kv = 0x26 :: t) /\
            (length (snd kv) <= length (fst kv))%nat)
         textReplaceMap.
Proof.
  unfold textReplaceMap.
  repeat (constructor; [split; [eexists; reflexivity | cbn; lia]|]).
  constructor.
Qed.

(** X15.  [textReplace] on a text without ['&']: the text comes back unchanged,
    in whatever order the map is visited. *)
Theorem textReplace_plain (order : list (list Z * list Z)) (data : list Z) :
  Permutation order textReplaceMap ->
  ~ In 0x26 data ->
  textReplace order data = data.
Proof.
  intros Hp Hd.
  assert (Hall : Forall (fun kv : list Z * list Z => exists t, fst kv = 0x26 :: t)
                        order).
  { apply (Permutation_Forall (Permutation_sym Hp)).
    eapply Forall_impl; [|apply textReplaceMap_entries].
    intros kv [H _]. exact H. }
  clear Hp. unfold textReplace.
  induction Hall as [|kv order [t Hk] _ IH]; [reflexivity|].
  cbn [fold_left]. rewrite Hk, Replace_absent by assumption. exact IH.
Qed.

Lemma textReplace_plain_witness :
  textReplace textReplaceMap (str "Total: 12.50") = str "Total: 12.50".
Proof.
  apply (textReplace_plain textReplaceMap (str "Total: 12.50")).
  - apply Permutation_refl.
  - vm_compute. intuition discriminate.
Defined.

(** X16.  [textReplace] never makes a text longer, in whatever order the map is
    visited. *)
Theorem textReplace_length (order : list (list Z * list Z)) (data : list Z) :
  Permutation order textReplaceMap ->
  (length (textReplace order data) <= length data)%nat.
Proof.
  intros Hp.
  assert (Hall : Forall (fun kv : list Z * list Z =>
                           (length (snd kv) <= length (fst kv))%nat) order).
  { apply (Permutation_Forall (Permutation_sym Hp)).
    eapply Forall_impl; [|apply textReplaceMap_entries].
    intros kv [_ H]. exact H. }
  clear Hp. unfold textReplace. revert data.
  induction Hall as [|kv order Hk _ IH]; intros data; [cbn; lia|].
  cbn [fold_left]. specialize (IH (Replace (fst kv) (snd kv) data 0)).
  pose proof (Replace_length (fst kv) (snd kv) data 0 Hk). lia.
Qed.

Lemma textReplace_length_witness :
  (length (textReplace textReplaceMap (str "a&lt;b&amp;c")) <=
   length (str "a&lt;b&amp;c"))%nat.
Proof.
  apply (textReplace_length textReplaceMap (str "a&lt;b&amp;c")).
  apply Permutation_refl.
Defined.

(** X17.  The result of [textReplace] depends on the order in which the map is
    visited: an escaped ampersand in front of an entity name is decoded
    once when ["&amp;"] is replaced last and twice when it is replaced
    first, and Go fixes no order. *)
Theorem textReplace_order_dependent :
  exists (o1 o2 : list (list Z * list Z)) (data : list Z),
    Permutation o1 textReplaceMap /\
    Permutation o2 textReplaceMap /\
    textReplace o1 data = str "&lt;" /\
    textReplace o2 data = str "<".
Proof.
  exists textReplaceMap, (rev textReplaceMap), (str "&amp;lt;").
  split; [apply Permutation_refl|].
  split; [apply Permutation_sym, Permutation_rev|].
  split; reflexivity.
Qed.

(** The entities of the map, each alone, in the order of the source. *)
Example textReplace_values :
  textReplace textReplaceMap (str "a&lt;b&gt;c&amp;d&apos;e&#10;f&#x9;g") =
    str "a<b>c&d'e" ++ [0x0A] ++ str "f" ++ [0x09] ++ str "g".
Proof. reflexivity. Qed.
